(** * TradingAgentsGraph: the orchestrator of tradingagents/graph/trading_graph.py

    A shallow embedding of the class [TradingAgentsGraph]: its constructor
    (provider selection, API-key checks, the five role memories, the state
    tracking fields), [propagate], [_log_state], [reflect_and_remember] and
    [process_signal].

    Python objects are modelled as follows.
    - The orchestrator instance is the record [TradingAgentsGraph]; the
      mutable world around it (memory collections, files, console) is
      [World]; a method is a function [Machine -> Res A * Machine], where an
      exception leaves in place every mutation done before it was raised.
    - Dictionaries used as maps ([log_states_dict], [os.environ], the memory
      collections by name, the files by path) are [gmap]s; dictionaries used
      as structures (the configuration, the agent state) are records.
    - Collaborators whose code is outside this module (the language-model
      clients, the propagator, the compiled graph, the signal processor, the
      reflector) are the fields of [Externals].
    - Calls to [logger] and [set_config], and the creation of directories,
      are not tracked. *)

From stdpp Require Import base option list strings gmap.

(** ** Exceptions and results *)

(** The exception classes that the module raises itself ([ValueError]), that
    the Python runtime raises on the operations it performs ([TypeError] for
    subscripting [None], [IndexError] for [trace[-1]] on an empty list,
    [NameError] for an unbound name, [AttributeError] for a method of
    [None]) and those of the collaborators ([Upstream]). [NoPriorRunError]
    is the class named by the specification; no definition below raises
    it. *)
Inductive exn : Type :=
  | ValueError (msg : string)
  | TypeError
  | IndexError
  | NameError (name : string)
  | AttributeError
  | NoPriorRunError
  | Upstream (what : string).

Inductive Res (A : Type) : Type :=
  | Ok (a : A)
  | Err (e : exn).
Arguments Ok {A} a.
Arguments Err {A} e.

Definition is_Ok {A} (r : Res A) : bool :=
  match r with Ok _ => true | Err _ => false end.

(** ** Data model *)

Record Message := { role : string; content : string }.

(** [investment_debate_state] and [risk_debate_state], with the keys that
    [_log_state] reads. *)
Record InvestDebateState := {
  bull_history : string;
  bear_history : string;
  invest_history : string;
  current_response : string;
  invest_judge_decision : string;
}.

Record RiskDebateState := {
  risky_history : string;
  safe_history : string;
  neutral_history : string;
  risk_history : string;
  risk_judge_decision : string;
}.

(** The agent state: the keys that [propagate] and [_log_state] read. *)
Record AgentState := {
  messages : list Message;
  company_of_interest : string;
  trade_date : string;
  market_report : string;
  sentiment_report : string;
  news_report : string;
  fundamentals_report : string;
  investment_debate_state : InvestDebateState;
  trader_investment_plan : string;
  risk_debate_state : RiskDebateState;
  investment_plan : string;
  final_trade_decision : string;
}.

(** One value of [log_states_dict], as [_log_state] builds it. *)
Record LogEntry := {
  log_company_of_interest : string;
  log_trade_date : string;
  log_market_report : string;
  log_sentiment_report : string;
  log_news_report : string;
  log_fundamentals_report : string;
  log_investment_debate_state : InvestDebateState;
  log_trader_investment_decision : string;
  log_risk_debate_state : RiskDebateState;
  log_investment_plan : string;
  log_final_trade_decision : string;
}.

(** An entry of a memory collection: the situation and the lesson. *)
Record MemEntry := { situation : string; recommendation : string }.

(** The canonical action.
    Modelled from the spec: the result type of the Signal Extractor
    (tradingagents/graph/signal_processing.py is not among the sources),
    section 4.6: an action among BUY, SELL, HOLD, UNKNOWN. *)
Inductive CanonicalAction := BUY | SELL | HOLD | UNKNOWN.

(** The realised return or loss handed to the reflector; the orchestrator
    only passes it on. *)
Definition Returns := Z.

(** The five reflecting roles, in the order [reflect_and_remember] calls
    them. *)
Inductive Role := Bull | Bear | Trader | InvestJudge | RiskManager.

#[global] Instance Role_eq_dec : EqDecision Role.
Proof. solve_decision. Defined.

Definition all_roles : list Role := [Bull; Bear; Trader; InvestJudge; RiskManager].

(** *** Configuration and language-model clients *)

(** The configuration dictionary: the keys the constructor subscripts are
    fields, the keys it reads with [config.get] are optional. *)
Record Config := {
  project_dir : string;
  llm_provider : string;
  deep_think_llm : string;
  quick_think_llm : string;
  backend_url : string;
  custom_openai_base_url : option string;
  memory_enabled : option bool;
}.

Inductive LLMClass :=
  | ChatOpenAI
  | ChatAnthropic
  | ChatGoogleOpenAI
  | ChatDashScopeOpenAI
  | ChatDeepSeek
  | OpenAICompatible (provider : string).

(** A client as the constructor requests it: the class and the keyword
    arguments. [llm_tuned] stands for [temperature=0.1, max_tokens=2000]. *)
Record LLMClient := {
  llm_class : LLMClass;
  llm_model : string;
  llm_base_url : option string;
  llm_api_key : option string;
  llm_tuned : bool;
  llm_client_options : option string;
  llm_transport : option string;
}.

(** The compiled graph remembers what it was built from. *)
Record CompiledGraph := {
  graph_analysts : list string;
  graph_quick_llm : LLMClient;
  graph_deep_llm : LLMClient;
  graph_tool_nodes : list (string * list string);
  graph_memories : list (option string);
}.

(** *** The orchestrator and the world *)

(** A role memory is a handle on a collection, named as
    [FinancialSituationMemory(name, config)] names it, or [None] when the
    memories are disabled. *)
Record TradingAgentsGraph := {
  debug : bool;
  config : Config;
  deep_thinking_llm : LLMClient;
  quick_thinking_llm : LLMClient;
  bull_memory : option string;
  bear_memory : option string;
  trader_memory : option string;
  invest_judge_memory : option string;
  risk_manager_memory : option string;
  curr_state : option AgentState;
  ticker : option string;
  log_states_dict : gmap string LogEntry;
  graph : CompiledGraph;
}.

(** The world: the memory collections by name, the files by path (a log
    file holds the JSON image of a [log_states_dict]), and the messages
    printed by [pretty_print]. *)
Record World := {
  stores : gmap string (list MemEntry);
  files : gmap string (gmap string LogEntry);
  stdout : list Message;
}.

Record Machine := { self : TradingAgentsGraph; world : World }.

(** The outcome of one execution of the compiled graph on an initial
    state: the state values it passes through, and either the error that
    stopped it or the terminal state. *)
Inductive GraphRun :=
  | Failed (yielded : list AgentState) (e : exn)
  | Completed (intermediate : list AgentState) (terminal : AgentState).

(** The reflector: one method per role, each given the current state, the
    returns and the memory object (its contents), and answering the new
    contents of that object or an exception. A method reaches no other
    object than the one it is handed. *)
Definition Reflector :=
  Role → option AgentState → Returns → option (list MemEntry) → Res (list MemEntry).

(** The collaborators of the orchestrator. *)
Record Externals := {
  (** [str.lower] *)
  str_lower : string → string;
  (** the constant [DEFAULT_CONFIG] *)
  default_config : Config;
  (** the constructors of the language-model clients may refuse *)
  llm_ctor : gmap string string → LLMClient → option exn;
  (** the name [client_options] that the Google branch reads; the module
      does not bind it itself, [None] stands for an unbound name *)
  client_options : option string;
  (** [GraphSetup.setup_graph] may refuse to build the graph *)
  setup_graph : CompiledGraph → option exn;
  (** [Propagator.create_initial_state] *)
  create_initial_state : string → string → Res AgentState;
  (** the execution of the compiled graph; stages read the memories *)
  graph_run : CompiledGraph → gmap string (list MemEntry) → AgentState → GraphRun;
  (** [SignalProcessor.process_signal] *)
  signal_process : string → option string → Res CanonicalAction;
  (** the five methods of [Reflector] *)
  reflector : Reflector;
}.

(** ** The state and exception monad of the methods *)

Definition Run (A : Type) : Type := Machine → Res A * Machine.

#[global] Instance Run_ret : MRet Run := λ A a m, (Ok a, m).
#[global] Instance Run_bind : MBind Run := λ A B f c m,
  match c m with
  | (Ok a, m') => f a m'
  | (Err e, m') => (Err e, m')
  end.

Definition raise {A} (e : exn) : Run A := λ m, (Err e, m).
Definition lift {A} (r : Res A) : Run A := λ m, (r, m).
Definition get_self : Run TradingAgentsGraph := λ m, (Ok (self m), m).
Definition get_world : Run World := λ m, (Ok (world m), m).
Definition put_self (o : TradingAgentsGraph) : Run unit :=
  λ m, (Ok tt, {| self := o; world := world m |}).
Definition put_world (w : World) : Run unit :=
  λ m, (Ok tt, {| self := self m; world := w |}).

(** Field assignments. *)
Definition set_ticker (t : option string) (o : TradingAgentsGraph) : TradingAgentsGraph :=
  {| debug := debug o; config := config o;
     deep_thinking_llm := deep_thinking_llm o;
     quick_thinking_llm := quick_thinking_llm o;
     bull_memory := bull_memory o; bear_memory := bear_memory o;
     trader_memory := trader_memory o;
     invest_judge_memory := invest_judge_memory o;
     risk_manager_memory := risk_manager_memory o;
     curr_state := curr_state o; ticker := t;
     log_states_dict := log_states_dict o; graph := graph o |}.

Definition set_curr_state (s : option AgentState) (o : TradingAgentsGraph) : TradingAgentsGraph :=
  {| debug := debug o; config := config o;
     deep_thinking_llm := deep_thinking_llm o;
     quick_thinking_llm := quick_thinking_llm o;
     bull_memory := bull_memory o; bear_memory := bear_memory o;
     trader_memory := trader_memory o;
     invest_judge_memory := invest_judge_memory o;
     risk_manager_memory := risk_manager_memory o;
     curr_state := s; ticker := ticker o;
     log_states_dict := log_states_dict o; graph := graph o |}.

Definition set_log_states_dict (d : gmap string LogEntry) (o : TradingAgentsGraph) : TradingAgentsGraph :=
  {| debug := debug o; config := config o;
     deep_thinking_llm := deep_thinking_llm o;
     quick_thinking_llm := quick_thinking_llm o;
     bull_memory := bull_memory o; bear_memory := bear_memory o;
     trader_memory := trader_memory o;
     invest_judge_memory := invest_judge_memory o;
     risk_manager_memory := risk_manager_memory o;
     curr_state := curr_state o; ticker := ticker o;
     log_states_dict := d; graph := graph o |}.

Definition set_stores (s : gmap string (list MemEntry)) (w : World) : World :=
  {| stores := s; files := files w; stdout := stdout w |}.
Definition set_files (f : gmap string (gmap string LogEntry)) (w : World) : World :=
  {| stores := stores w; files := f; stdout := stdout w |}.
Definition set_stdout (l : list Message) (w : World) : World :=
  {| stores := stores w; files := files w; stdout := l |}.

#[global] Instance Res_ret : MRet Res := λ A a, Ok a.
#[global] Instance Res_bind : MBind Res := λ A B f r,
  match r with Ok a => f a | Err e => Err e end.

(** ** Python helpers *)

(** [needle in hay] on strings. *)
Fixpoint str_in (needle hay : string) : bool :=
  String.prefix needle hay ||
  match hay with
  | EmptyString => false
  | String _ rest => str_in needle rest
  end.

(** Truth value of the result of [os.getenv]: [None] and the empty string
    are false. *)
Definition truthy (v : option string) : bool :=
  match v with
  | None => false
  | Some s => negb (String.eqb s "")
  end.

(** [a or b] *)
Definition py_or (a b : option string) : option string :=
  if truthy a then a else b.

(** [l[-1]] *)
Definition py_last {A} (l : list A) : Res A :=
  match last l with
  | Some x => Ok x
  | None => Err IndexError
  end.

(** ** The constructor *)

Section Orchestrator.

Context (E : Externals).

Definition new_llm (env : gmap string string) (c : LLMClient) : Res LLMClient :=
  match llm_ctor E env c with
  | Some e => Err e
  | None => Ok c
  end.

Definition client (cls : LLMClass) (model : string) (base_url api_key : option string)
    (tuned : bool) : LLMClient :=
  {| llm_class := cls; llm_model := model; llm_base_url := base_url;
     llm_api_key := api_key; llm_tuned := tuned;
     llm_client_options := None; llm_transport := None |}.

(** The conditions of the provider chain, in the order of the source. *)
Definition is_openai (p : string) : bool := String.eqb (str_lower E p) "openai".
Definition is_siliconflow (p : string) : bool := String.eqb p "siliconflow".
Definition is_openrouter (p : string) : bool := String.eqb p "openrouter".
Definition is_ollama (p : string) : bool := String.eqb p "ollama".
Definition is_anthropic (p : string) : bool := String.eqb (str_lower E p) "anthropic".
Definition is_google (p : string) : bool := String.eqb (str_lower E p) "google".
Definition is_dashscope (p : string) : bool :=
  String.eqb (str_lower E p) "dashscope" ||
  String.eqb (str_lower E p) "alibaba" ||
  str_in "dashscope" (str_lower E p) ||
  str_in "阿里百炼" p.
Definition is_deepseek (p : string) : bool :=
  String.eqb (str_lower E p) "deepseek" || str_in "deepseek" (str_lower E p).
Definition is_custom_openai (p : string) : bool :=
  String.eqb (str_lower E p) "custom_openai".
Definition is_qianfan (p : string) : bool := String.eqb (str_lower E p) "qianfan".

(** Both clients of a branch, the deep one first. *)
Definition two_llms (env : gmap string string) (deep quick : LLMClient)
    : Res (LLMClient * LLMClient) :=
  d ← new_llm env deep;
  q ← new_llm env quick;
  mret (d, q).

(** The [if]/[elif] chain of the constructor that initialises
    [deep_thinking_llm] and [quick_thinking_llm]. *)
Definition init_llms (cfg : Config) (env : gmap string string)
    : Res (LLMClient * LLMClient) :=
  let p := llm_provider cfg in
  let url := Some (backend_url cfg) in
  if is_openai p then
    two_llms env (client ChatOpenAI (deep_think_llm cfg) url None false)
                 (client ChatOpenAI (quick_think_llm cfg) url None false)
  else if is_siliconflow p then
    let siliconflow_api_key := env !! "SILICONFLOW_API_KEY" in
    if negb (truthy siliconflow_api_key) then
      Err (ValueError "使用SiliconFlow需要设置SILICONFLOW_API_KEY环境变量")
    else
      two_llms env
        (client ChatOpenAI (deep_think_llm cfg) url siliconflow_api_key true)
        (client ChatOpenAI (quick_think_llm cfg) url siliconflow_api_key true)
  else if is_openrouter p then
    let openrouter_api_key :=
      py_or (env !! "OPENROUTER_API_KEY") (env !! "OPENAI_API_KEY") in
    if negb (truthy openrouter_api_key) then
      Err (ValueError "使用OpenRouter需要设置OPENROUTER_API_KEY或OPENAI_API_KEY环境变量")
    else
      two_llms env
        (client ChatOpenAI (deep_think_llm cfg) url openrouter_api_key false)
        (client ChatOpenAI (quick_think_llm cfg) url openrouter_api_key false)
  else if is_ollama p then
    two_llms env (client ChatOpenAI (deep_think_llm cfg) url None false)
                 (client ChatOpenAI (quick_think_llm cfg) url None false)
  else if is_anthropic p then
    two_llms env (client ChatAnthropic (deep_think_llm cfg) url None false)
                 (client ChatAnthropic (quick_think_llm cfg) url None false)
  else if is_google p then
    let google_api_key := env !! "GOOGLE_API_KEY" in
    if negb (truthy google_api_key) then
      Err (ValueError "使用Google AI需要设置GOOGLE_API_KEY环境变量")
    else
      d ← new_llm env
            (client ChatGoogleOpenAI (deep_think_llm cfg) None google_api_key true);
      match client_options E with
      | None => Err (NameError "client_options")
      | Some options =>
          q ← new_llm env
                {| llm_class := ChatGoogleOpenAI; llm_model := quick_think_llm cfg;
                   llm_base_url := None; llm_api_key := google_api_key;
                   llm_tuned := true; llm_client_options := Some options;
                   llm_transport := Some "rest" |};
          mret (d, q)
      end
  else if is_dashscope p then
    two_llms env
      (client ChatDashScopeOpenAI (deep_think_llm cfg) None None true)
      (client ChatDashScopeOpenAI (quick_think_llm cfg) None None true)
  else if is_deepseek p then
    let deepseek_api_key := env !! "DEEPSEEK_API_KEY" in
    if negb (truthy deepseek_api_key) then
      Err (ValueError "使用DeepSeek需要设置DEEPSEEK_API_KEY环境变量")
    else
      let deepseek_base_url :=
        default "https://api.deepseek.com" (env !! "DEEPSEEK_BASE_URL") in
      two_llms env
        (client ChatDeepSeek (deep_think_llm cfg) (Some deepseek_base_url)
                deepseek_api_key true)
        (client ChatDeepSeek (quick_think_llm cfg) (Some deepseek_base_url)
                deepseek_api_key true)
  else if is_custom_openai p then
    let custom_api_key := env !! "CUSTOM_OPENAI_API_KEY" in
    if negb (truthy custom_api_key) then
      Err (ValueError "使用自定义OpenAI端点需要设置CUSTOM_OPENAI_API_KEY环境变量")
    else
      let custom_base_url :=
        default "https://api.openai.com/v1" (custom_openai_base_url cfg) in
      two_llms env
        (client (OpenAICompatible "custom_openai") (deep_think_llm cfg)
                (Some custom_base_url) None true)
        (client (OpenAICompatible "custom_openai") (quick_think_llm cfg)
                (Some custom_base_url) None true)
  else if is_qianfan p then
    two_llms env
      (client (OpenAICompatible "qianfan") (deep_think_llm cfg) None None true)
      (client (OpenAICompatible "qianfan") (quick_think_llm cfg) None None true)
  else
    Err (ValueError ("Unsupported LLM provider: " +:+ p)).

(** The branch of the chain that a provider name selects: the first
    condition that holds, [None] for the final [else]. *)
Inductive Provider :=
  | OpenAI | SiliconFlow | OpenRouter | Ollama | Anthropic
  | Google | DashScope | DeepSeek | CustomOpenAI | Qianfan.

Definition provider_branch (p : string) : option Provider :=
  if is_openai p then Some OpenAI
  else if is_siliconflow p then Some SiliconFlow
  else if is_openrouter p then Some OpenRouter
  else if is_ollama p then Some Ollama
  else if is_anthropic p then Some Anthropic
  else if is_google p then Some Google
  else if is_dashscope p then Some DashScope
  else if is_deepseek p then Some DeepSeek
  else if is_custom_openai p then Some CustomOpenAI
  else if is_qianfan p then Some Qianfan
  else None.

(** The environment variables a branch checks before it builds its
    clients; any one of them suffices. The other branches leave the
    credentials to the clients. *)
Definition required_keys (b : Provider) : list string :=
  match b with
  | SiliconFlow => ["SILICONFLOW_API_KEY"]
  | OpenRouter => ["OPENROUTER_API_KEY"; "OPENAI_API_KEY"]
  | Google => ["GOOGLE_API_KEY"]
  | DeepSeek => ["DEEPSEEK_API_KEY"]
  | CustomOpenAI => ["CUSTOM_OPENAI_API_KEY"]
  | _ => []
  end.

(** A branch requires a key and none of its variables is set (to a
    non-empty value). *)
Definition key_missing (env : gmap string string) (b : Provider) : bool :=
  match required_keys b with
  | [] => false
  | ks => forallb (λ k, negb (truthy (env !! k))) ks
  end.

(** The names of the five collections, as the constructor spells them. *)
Definition memory_name (r : Role) : string :=
  match r with
  | Bull => "bull_memory"
  | Bear => "bear_memory"
  | Trader => "trader_memory"
  | InvestJudge => "invest_judge_memory"
  | RiskManager => "risk_manager_memory"
  end.

(** [FinancialSituationMemory(name, config)].
    Modelled from the spec: the Memory Store
    (tradingagents/agents/utils/memory.py is not among the sources),
    sections 3 and 9: one append-only store per role, kept by a registry
    keyed by name, so that constructing a memory opens the collection of
    that name and creates it empty when it does not exist yet. *)
Definition FinancialSituationMemory (name : string)
    (s : gmap string (list MemEntry)) : gmap string (list MemEntry) :=
  match s !! name with
  | Some _ => s
  | None => <[name := []]> s
  end.

(** The memory block of the constructor: the handles and the collections. *)
Definition init_memories (cfg : Config) (s : gmap string (list MemEntry))
    : (Role → option string) * gmap string (list MemEntry) :=
  if default true (memory_enabled cfg) then
    (λ r, Some (memory_name r),
     FinancialSituationMemory "risk_manager_memory"
       (FinancialSituationMemory "invest_judge_memory"
          (FinancialSituationMemory "trader_memory"
             (FinancialSituationMemory "bear_memory"
                (FinancialSituationMemory "bull_memory" s)))))
  else (λ _, None, s).

(** [_create_tool_nodes]: the tools of each data source, by name. *)
Definition _create_tool_nodes : list (string * list string) :=
  [("market",
    ["get_stock_market_data_unified";
     "get_YFin_data_online";
     "get_stockstats_indicators_report_online";
     "get_YFin_data";
     "get_stockstats_indicators_report"]);
   ("social",
    ["get_stock_news_openai";
     "get_reddit_stock_info"]);
   ("news",
    ["get_global_news_openai";
     "get_google_news";
     "get_finnhub_news";
     "get_reddit_news"]);
   ("fundamentals",
    ["get_stock_fundamentals_unified";
     "get_finnhub_company_insider_sentiment";
     "get_finnhub_company_insider_transactions";
     "get_simfin_balance_sheet";
     "get_simfin_cashflow";
     "get_simfin_income_stmt"])].

(** [TradingAgentsGraph(selected_analysts, debug, config)], run with the
    environment [env] in the world [w]. The toolkit, the conditional
    logic, the propagator, the reflector and the signal processor that the
    constructor creates keep no state of their own here: what they do is
    in [Externals]. An exception leaves no orchestrator. *)
Definition __init__ (selected_analysts : list string) (dbg : bool)
    (cfg_arg : option Config) (env : gmap string string) (w : World)
    : Res TradingAgentsGraph * World :=
  let cfg := default (default_config E) cfg_arg in
  match init_llms cfg env with
  | Err e => (Err e, w)
  | Ok (deep, quick) =>
      let '(mem, s) := init_memories cfg (stores w) in
      let w' := set_stores s w in
      let g := {| graph_analysts := selected_analysts;
                  graph_quick_llm := quick; graph_deep_llm := deep;
                  graph_tool_nodes := _create_tool_nodes;
                  graph_memories := mem <$> all_roles |} in
      match setup_graph E g with
      | Some e => (Err e, w')
      | None =>
          (Ok {| debug := dbg; config := cfg;
                 deep_thinking_llm := deep; quick_thinking_llm := quick;
                 bull_memory := mem Bull; bear_memory := mem Bear;
                 trader_memory := mem Trader;
                 invest_judge_memory := mem InvestJudge;
                 risk_manager_memory := mem RiskManager;
                 curr_state := None; ticker := None;
                 log_states_dict := ∅; graph := g |}, w')
      end
  end.

(** ** Running the graph *)

(** [graph.stream(init_agent_state, **args)] and
    [graph.invoke(init_agent_state, **args)].
    Modelled from the spec: the execution substrate (the compiled graph
    comes from tradingagents/graph/setup.py and the execution arguments
    from tradingagents/graph/propagation.py, neither among the sources),
    section 4.2: streaming yields each state of the run as it progresses,
    the terminal state last, batch mode returns only the terminal state; a
    run that fails raises after the states it has yielded. *)
Definition stream_chunks (r : GraphRun) : list AgentState :=
  match r with
  | Failed yielded _ => yielded
  | Completed intermediate terminal => intermediate ++ [terminal]
  end.

Definition stream_end (r : GraphRun) : Run unit :=
  match r with
  | Failed _ e => raise e
  | Completed _ _ => mret tt
  end.

Definition invoke (r : GraphRun) : Run AgentState :=
  match r with
  | Failed _ e => raise e
  | Completed _ terminal => mret terminal
  end.

(** [m.pretty_print()] writes the message to the console. *)
Definition pretty_print (m : Message) : Run unit :=
  w ← get_world;
  put_world (set_stdout (stdout w ++ [m]) w).

(** The body of [for chunk in self.graph.stream(...)], over the chunks the
    stream yields, with the [trace] built so far. In the [else] branch the
    messages are not empty, so that [chunk["messages"][-1]] exists. *)
Fixpoint trace_loop (chunks trace : list AgentState) : Run (list AgentState) :=
  match chunks with
  | [] => mret trace
  | chunk :: rest =>
      if length (messages chunk) =? 0 then
        trace_loop rest trace
      else
        match last (messages chunk) with
        | Some m => pretty_print m
        | None => mret tt
        end;;
        trace_loop rest (trace ++ [chunk])
  end.

(** ** [_log_state] *)

(** The dictionary stored under [str(trade_date)]. *)
Definition log_entry (final_state : AgentState) : LogEntry :=
  let ids := investment_debate_state final_state in
  let rds := risk_debate_state final_state in
  {| log_company_of_interest := company_of_interest final_state;
     log_trade_date := trade_date final_state;
     log_market_report := market_report final_state;
     log_sentiment_report := sentiment_report final_state;
     log_news_report := news_report final_state;
     log_fundamentals_report := fundamentals_report final_state;
     log_investment_debate_state :=
       {| bull_history := bull_history ids;
          bear_history := bear_history ids;
          invest_history := invest_history ids;
          current_response := current_response ids;
          invest_judge_decision := invest_judge_decision ids |};
     log_trader_investment_decision := trader_investment_plan final_state;
     log_risk_debate_state :=
       {| risky_history := risky_history rds;
          safe_history := safe_history rds;
          neutral_history := neutral_history rds;
          risk_history := risk_history rds;
          risk_judge_decision := risk_judge_decision rds |};
     log_investment_plan := investment_plan final_state;
     log_final_trade_decision := final_trade_decision final_state |}.

(** The text of [self.ticker] inside an f-string. *)
Definition ticker_text (t : option string) : string := default "None" t.

(** The path of the log file of an instrument. *)
Definition log_path (t : option string) : string :=
  "eval_results/" +:+ ticker_text t +:+
  "/TradingAgentsStrategy_logs/full_states_log.json".

(** Dates are strings, on which [str] is the identity. The state is a
    record, which has every key that the method subscripts, and the file
    system takes the write: the [KeyError] of a state without one of the
    keys and the [OSError] of [mkdir], [open] or [json.dump] are outside
    this model, in which the method always returns. *)
Definition _log_state (date : string) (final_state : AgentState) : Run unit :=
  o ← get_self;
  put_self (set_log_states_dict
              (<[date := log_entry final_state]> (log_states_dict o)) o);;
  o ← get_self;
  w ← get_world;
  put_world (set_files (<[log_path (ticker o) := log_states_dict o]> (files w)) w).

(** ** [process_signal] and [propagate] *)

Definition process_signal (full_signal : string) (stock_symbol : option string)
    : Run CanonicalAction :=
  lift (signal_process E full_signal stock_symbol).

Definition propagate (company_name date : string) : Run (AgentState * CanonicalAction) :=
  o ← get_self;
  put_self (set_ticker (Some company_name) o);;
  init_agent_state ← lift (create_initial_state E company_name date);
  o ← get_self;
  w ← get_world;
  let run := graph_run E (graph o) (stores w) init_agent_state in
  final_state ←
    (if debug o then
       trace ← trace_loop (stream_chunks run) [];
       stream_end run;;
       lift (py_last trace)
     else
       invoke run);
  o ← get_self;
  put_self (set_curr_state (Some final_state) o);;
  _log_state date final_state;;
  signal ← process_signal (final_trade_decision final_state) (Some company_name);
  mret (final_state, signal).

(** ** [reflect_and_remember] *)

Definition memory_of (o : TradingAgentsGraph) (r : Role) : option string :=
  match r with
  | Bull => bull_memory o
  | Bear => bear_memory o
  | Trader => trader_memory o
  | InvestJudge => invest_judge_memory o
  | RiskManager => risk_manager_memory o
  end.

(** The contents of the memory object behind a handle. *)
Definition memory_contents (s : gmap string (list MemEntry)) (h : option string)
    : option (list MemEntry) :=
  match h with
  | Some n => Some (default [] (s !! n))
  | None => None
  end.

(** One call [self.reflector.reflect_<role>(self.curr_state, returns_losses,
    self.<role>_memory)]: the method works on the object it is handed, and
    what it leaves there is the new contents of that collection. *)
Definition reflect_role (r : Role) (returns_losses : Returns) : Run unit :=
  o ← get_self;
  w ← get_world;
  let h := memory_of o r in
  match reflector E r (curr_state o) returns_losses (memory_contents (stores w) h) with
  | Err e => raise e
  | Ok l =>
      match h with
      | Some n => put_world (set_stores (<[n := l]> (stores w)) w)
      | None => mret tt
      end
  end.

Definition reflect_and_remember (returns_losses : Returns) : Run unit :=
  reflect_role Bull returns_losses;;
  reflect_role Bear returns_losses;;
  reflect_role Trader returns_losses;;
  reflect_role InvestJudge returns_losses;;
  reflect_role RiskManager returns_losses.

(** ** Vocabulary of the statements *)

(** A chunk that the streaming loop keeps. *)
Definition has_messages (chunk : AgentState) : bool :=
  negb (length (messages chunk) =? 0).

(** The state that [propagate] takes as [final_state]: in batch mode the
    terminal state of the run, in streaming mode the last chunk kept. *)
Definition final_state_of (dbg : bool) (r : GraphRun) : Res AgentState :=
  match r with
  | Failed _ e => Err e
  | Completed intermediate terminal =>
      if dbg then py_last (filter (λ c, has_messages c = true) (intermediate ++ [terminal]))
      else Ok terminal
  end.

(** The answer of the reflector for a role, on the machine as it stands:
    the call that [reflect_role] makes. *)
Definition outcome (returns_losses : Returns) (m : Machine) (r : Role)
    : Res (list MemEntry) :=
  reflector E r (curr_state (self m)) returns_losses
    (memory_contents (stores (world m)) (memory_of (self m) r)).

(** The calls of [reflect_and_remember], as a loop over the roles. *)
Fixpoint reflect_seq (rs : list Role) (returns_losses : Returns) : Run unit :=
  match rs with
  | [] => mret tt
  | r :: rest => reflect_role r returns_losses;; reflect_seq rest returns_losses
  end.

(** Successive calls of [propagate], whatever each of them answers. *)
Fixpoint runs (calls : list (string * string)) (m : Machine) : Machine :=
  match calls with
  | [] => m
  | (company_name, date) :: rest => runs rest (snd (propagate company_name date m))
  end.

(** The machines that the methods produce: the one the constructor
    leaves, and those after a call of [propagate] or of
    [reflect_and_remember]. *)
Inductive reachable : Machine → Prop :=
  | reach_init (selected_analysts : list string) (dbg : bool) (cfg : option Config)
      (env : gmap string string) (w : World) (o : TradingAgentsGraph) (w' : World) :
      __init__ selected_analysts dbg cfg env w = (Ok o, w') →
      reachable {| self := o; world := w' |}
  | reach_propagate (m : Machine) (company_name date : string) :
      reachable m → reachable (snd (propagate company_name date m))
  | reach_reflect (m : Machine) (returns_losses : Returns) :
      reachable m → reachable (snd (reflect_and_remember returns_losses m)).

End Orchestrator.

(** No two roles share a handle. *)
Definition handles_distinct (o : TradingAgentsGraph) : Prop :=
  ∀ r1 r2 n, memory_of o r1 = Some n → memory_of o r2 = Some n → r1 = r2.

(** The role memories are those that the configuration asks for. *)
Definition memories_by_config (o : TradingAgentsGraph) : Prop :=
  ∀ r, memory_of o r =
       if default true (memory_enabled (config o)) then Some (memory_name r) else None.

(** [debug] apart, the same orchestrator. *)
Definition set_debug (b : bool) (o : TradingAgentsGraph) : TradingAgentsGraph :=
  {| debug := b; config := config o;
     deep_thinking_llm := deep_thinking_llm o;
     quick_thinking_llm := quick_thinking_llm o;
     bull_memory := bull_memory o; bear_memory := bear_memory o;
     trader_memory := trader_memory o;
     invest_judge_memory := invest_judge_memory o;
     risk_manager_memory := risk_manager_memory o;
     curr_state := curr_state o; ticker := ticker o;
     log_states_dict := log_states_dict o; graph := graph o |}.

(** What the streaming loop prints: the last message of every chunk that
    has one. *)
Definition printed (chunks : list AgentState) : list Message :=
  omap (λ chunk, last (messages chunk)) chunks.

(** The world after the execution of the graph: streaming has printed. *)
Definition world_after_run (dbg : bool) (run : GraphRun) (w : World) : World :=
  if dbg then set_stdout (stdout w ++ printed (stream_chunks run)) w else w.

(** A log entry is a snapshot of a state: the reports, both debate
    histories, the plan of the trader and the final decision. *)
Definition is_snapshot (e : LogEntry) (s : AgentState) : Prop :=
  log_company_of_interest e = company_of_interest s ∧
  log_trade_date e = trade_date s ∧
  log_market_report e = market_report s ∧
  log_sentiment_report e = sentiment_report s ∧
  log_news_report e = news_report s ∧
  log_fundamentals_report e = fundamentals_report s ∧
  log_investment_debate_state e = investment_debate_state s ∧
  log_trader_investment_decision e = trader_investment_plan s ∧
  log_risk_debate_state e = risk_debate_state s ∧
  log_investment_plan e = investment_plan s ∧
  log_final_trade_decision e = final_trade_decision s.

(** The world after a role has been given new contents. *)
Definition with_contents (h : option string) (l : list MemEntry) (w : World) : World :=
  match h with
  | Some n => set_stores (<[n := l]> (stores w)) w
  | None => w
  end.

(** ** The transcript along a run *)

(** Modelled from the spec: the transcript of a run of the graph (the
    graph comes from tradingagents/graph/setup.py and the initial state
    from tradingagents/graph/propagation.py, neither among the sources),
    sections 3 and 4.2: the initial state is seeded with a single framing
    entry, and [messages] is append-only, its length non-decreasing from
    each state of the run to the next, the states of the run being those
    that the stream yields after the initial state. *)
Fixpoint never_shrinks (states : list AgentState) : bool :=
  match states with
  | [] => true
  | a :: rest =>
      match rest with
      | [] => true
      | b :: _ => (length (messages a) <=? length (messages b)) && never_shrinks rest
      end
  end.

Definition keeps_transcript (init : AgentState) (r : GraphRun) : bool :=
  (length (messages init) =? 1) &&
  never_shrinks (init :: stream_chunks r).

(** ** The reflection engine *)

(** Modelled from the spec: the Reflection Engine
    (tradingagents/graph/reflection.py is not among the sources), section
    4.5: for a role, it builds a critique input from that role's portion of
    the final state (its history or decision) and the outcome, obtains a
    lesson from a language-model call, and appends the pair of the
    serialised decision context and the lesson to that role's memory. The
    state is read first, so that an absent state ([None]) stops the method
    with the [TypeError] of subscripting [None]; the append comes last and
    is atomic, so that a method that raises has appended nothing; with no
    memory object ([None]) the append is the [AttributeError] of calling a
    method of [None]. *)
Definition role_portion (r : Role) (s : AgentState) : string :=
  match r with
  | Bull => bull_history (investment_debate_state s)
  | Bear => bear_history (investment_debate_state s)
  | Trader => trader_investment_plan s
  | InvestJudge => invest_judge_decision (investment_debate_state s)
  | RiskManager => risk_judge_decision (risk_debate_state s)
  end.

Definition decision_context (s : AgentState) : string :=
  market_report s +:+ sentiment_report s +:+ news_report s +:+ fundamentals_report s.

Definition spec_reflector (llm : Role → string → string → Returns → Res string)
    : Reflector :=
  λ r state returns_losses memory,
    match state with
    | None => Err TypeError
    | Some s =>
        match llm r (role_portion r s) (decision_context s) returns_losses with
        | Err e => Err e
        | Ok lesson =>
            match memory with
            | None => Err AttributeError
            | Some l =>
                Ok (l ++ [{| situation := decision_context s;
                             recommendation := lesson |}])
            end
        end
    end.

(** ** Test doubles *)

(** [str.lower] on ASCII text. *)
Definition ascii_lower (a : Stdlib.Strings.Ascii.ascii) : Stdlib.Strings.Ascii.ascii :=
  let n := Stdlib.Strings.Ascii.nat_of_ascii a in
  if (65 <=? n) && (n <=? 90) then Stdlib.Strings.Ascii.ascii_of_nat (n + 32) else a.

Fixpoint lower (s : string) : string :=
  match s with
  | EmptyString => EmptyString
  | String a rest => String (ascii_lower a) (lower rest)
  end.

Definition no_debate : InvestDebateState :=
  {| bull_history := ""; bear_history := ""; invest_history := "";
     current_response := ""; invest_judge_decision := "" |}.

Definition no_risk_debate : RiskDebateState :=
  {| risky_history := ""; safe_history := ""; neutral_history := "";
     risk_history := ""; risk_judge_decision := "" |}.

(** A state for an instrument and a date, with the given transcript, plan
    and final decision. *)
Definition state_with (company date : string) (msgs : list Message)
    (plan decision : string) : AgentState :=
  {| messages := msgs; company_of_interest := company; trade_date := date;
     market_report := ""; sentiment_report := ""; news_report := "";
     fundamentals_report := "";
     investment_debate_state := no_debate;
     trader_investment_plan := "";
     risk_debate_state := no_risk_debate;
     investment_plan := plan; final_trade_decision := decision |}.

Definition framing : Message := {| role := "human"; content := "AAPL" |}.
Definition verdict : Message := {| role := "ai"; content := "HOLD, risk is balanced" |}.

Definition test_config (provider : string) (memory : option bool) : Config :=
  {| project_dir := "."; llm_provider := provider;
     deep_think_llm := "deep"; quick_think_llm := "quick";
     backend_url := "https://api.openai.com/v1";
     custom_openai_base_url := None; memory_enabled := memory |}.

(** Collaborators that never fail, around a given graph behaviour and a
    given reflector. *)
Definition doubles
    (run : CompiledGraph → gmap string (list MemEntry) → AgentState → GraphRun)
    (refl : Reflector) : Externals :=
  {| str_lower := lower;
     default_config := test_config "openai" None;
     llm_ctor := λ _ _, None;
     client_options := None;
     setup_graph := λ _, None;
     create_initial_state := λ company date,
       Ok (state_with company date [framing] "" "");
     graph_run := run;
     signal_process := λ _ _, Ok HOLD;
     reflector := refl |}.

(** A language model that always gives the same lesson. *)
Definition fixed_lesson : Role → string → string → Returns → Res string :=
  λ _ _ _ _, Ok "be patient".

(** A language model that fails on the trader only. *)
Definition trader_fails : Role → string → string → Returns → Res string :=
  λ r _ _ _, if decide (r = Trader) then Err (Upstream "timeout") else Ok "be patient".

(** A run that ends with the fixed narrative, the transcript kept. *)
Definition run_hold (g : CompiledGraph) (s : gmap string (list MemEntry))
    (init : AgentState) : GraphRun :=
  Completed [init]
    (state_with (company_of_interest init) (trade_date init)
       (messages init ++ [verdict]) "" "HOLD, risk is balanced").

(** A run in which no state carries a message. *)
Definition run_silent (g : CompiledGraph) (s : gmap string (list MemEntry))
    (init : AgentState) : GraphRun :=
  Completed []
    (state_with (company_of_interest init) (trade_date init)
       [] "" "HOLD, risk is balanced").

(** A run that fails for the instrument MSFT and holds otherwise. *)
Definition run_fails_msft (g : CompiledGraph) (s : gmap string (list MemEntry))
    (init : AgentState) : GraphRun :=
  if String.eqb (company_of_interest init) "MSFT" then
    Failed [init] (Upstream "timeout")
  else run_hold g s init.

(** A run whose plan quotes the lessons recalled from the bull memory. *)
Definition run_recalling (g : CompiledGraph) (s : gmap string (list MemEntry))
    (init : AgentState) : GraphRun :=
  Completed [init]
    (state_with (company_of_interest init) (trade_date init)
       (messages init ++ [verdict])
       (foldr (λ e acc, recommendation e +:+ acc) "" (default [] (s !! "bull_memory")))
       "HOLD, risk is balanced").

Definition empty_world : World := {| stores := ∅; files := ∅; stdout := [] |}.

Definition standard_analysts : list string := ["market"; "social"; "news"; "fundamentals"].

(** The collaborators of the scenarios. *)
Definition E_hold : Externals := doubles run_hold (spec_reflector fixed_lesson).
Definition E_silent : Externals := doubles run_silent (spec_reflector fixed_lesson).
Definition E_fails : Externals := doubles run_fails_msft (spec_reflector fixed_lesson).
Definition E_recalling : Externals := doubles run_recalling (spec_reflector fixed_lesson).
Definition E_trader_fails : Externals := doubles run_hold (spec_reflector trader_fails).

(** The orchestrator that the constructor builds for the provider
    [openai], in an empty world with an empty environment, and the world
    it leaves; [memory] is the value of [memory_enabled]. *)
Definition openai_client (model : string) : LLMClient :=
  client ChatOpenAI model (Some "https://api.openai.com/v1") None false.

Definition fresh_orchestrator (dbg : bool) (memory : option bool) : TradingAgentsGraph :=
  let mem := λ r, if default true memory then Some (memory_name r) else None in
  {| debug := dbg; config := test_config "openai" memory;
     deep_thinking_llm := openai_client "deep";
     quick_thinking_llm := openai_client "quick";
     bull_memory := mem Bull; bear_memory := mem Bear;
     trader_memory := mem Trader;
     invest_judge_memory := mem InvestJudge;
     risk_manager_memory := mem RiskManager;
     curr_state := None; ticker := None; log_states_dict := ∅;
     graph := {| graph_analysts := standard_analysts;
                 graph_quick_llm := openai_client "quick";
                 graph_deep_llm := openai_client "deep";
                 graph_tool_nodes := _create_tool_nodes;
                 graph_memories := mem <$> all_roles |} |}.

Definition fresh_world (memory : option bool) : World :=
  set_stores (init_memories (test_config "openai" memory) ∅).2 empty_world.

Definition fresh (dbg : bool) (memory : option bool) : Machine :=
  {| self := fresh_orchestrator dbg memory; world := fresh_world memory |}.

(** The states of the scenarios. *)
Definition initial (company date : string) : AgentState :=
  state_with company date [framing] "" "".

Definition held (company date : string) : AgentState :=
  state_with company date [framing; verdict] "" "HOLD, risk is balanced".

Definition cleared (company date : string) : AgentState :=
  state_with company date [] "" "HOLD, risk is balanced".

Definition recalled (company date plan : string) : AgentState :=
  state_with company date [framing; verdict] plan "HOLD, risk is balanced".

Definition lesson_of (s : AgentState) : MemEntry :=
  {| situation := decision_context s; recommendation := "be patient" |}.

(** The machine after a first run for AAPL on 2024-05-01. *)
Definition after_first_run (E : Externals) : Machine :=
  snd (propagate E "AAPL" "2024-05-01" (fresh false None)).

(** ** Vocabulary of the further properties *)

(** The provider names that the chain compares as they are written, and
    those that it compares in lower case, with the branch of each. *)
Definition exact_names : list (string * Provider) :=
  [("siliconflow", SiliconFlow); ("openrouter", OpenRouter); ("ollama", Ollama)].

Definition lowered_names : list (string * Provider) :=
  [("openai", OpenAI); ("anthropic", Anthropic); ("google", Google);
   ("dashscope", DashScope); ("alibaba", DashScope); ("deepseek", DeepSeek);
   ("custom_openai", CustomOpenAI); ("qianfan", Qianfan)].

(** The branches whose clients are handed [backend_url], and those whose
    clients are handed an API key read from the environment. *)
Definition uses_backend_url (b : Provider) : bool :=
  match b with
  | OpenAI | SiliconFlow | OpenRouter | Ollama | Anthropic => true
  | _ => false
  end.

Definition hands_key (b : Provider) : bool :=
  match b with
  | SiliconFlow | OpenRouter | Google | DeepSeek => true
  | _ => false
  end.

(** The configuration with another [backend_url]. *)
Definition with_backend_url (url : string) (cfg : Config) : Config :=
  {| project_dir := project_dir cfg; llm_provider := llm_provider cfg;
     deep_think_llm := deep_think_llm cfg; quick_think_llm := quick_think_llm cfg;
     backend_url := url;
     custom_openai_base_url := custom_openai_base_url cfg;
     memory_enabled := memory_enabled cfg |}.

(** Two machines that differ at most in the [debug] flag and in what the
    console shows. *)
Definition same_but_console (m1 m2 : Machine) : Prop :=
  set_debug false (self m1) = set_debug false (self m2) ∧
  stores (world m1) = stores (world m2) ∧
  files (world m1) = files (world m2).

(** The collaborators with another signal processor. *)
Definition with_signal_process (f : string → option string → Res CanonicalAction)
    (E : Externals) : Externals :=
  {| str_lower := str_lower E; default_config := default_config E;
     llm_ctor := llm_ctor E; client_options := client_options E;
     setup_graph := setup_graph E;
     create_initial_state := create_initial_state E;
     graph_run := graph_run E; signal_process := f;
     reflector := reflector E |}.

(** A signal processor whose language model fails. *)
Definition E_signal_fails : Externals :=
  with_signal_process (λ _ _, Err (Upstream "signal")) E_hold.

(** What the constructor answers in an empty world, and the orchestrator
    in that answer (the fresh one when there is none). *)
Definition construct (E : Externals) (cfg : Config) (env : gmap string string)
    : Res TradingAgentsGraph * World :=
  __init__ E standard_analysts false (Some cfg) env empty_world.

Definition constructed (E : Externals) (cfg : Config) (env : gmap string string)
    : TradingAgentsGraph :=
  match fst (construct E cfg env) with
  | Ok o => o
  | Err _ => fresh_orchestrator false None
  end.

(** The world that the constructor leaves when it starts in an empty one
    with the memories enabled. *)
Definition empty_world_with_memories : World := fresh_world None.

(** An [openai] client with another base URL. *)
Definition openai_client_at (url model : string) : LLMClient :=
  client ChatOpenAI model (Some url) None false.

(** An environment with an empty OPENROUTER_API_KEY and an
    OPENAI_API_KEY. *)
Definition both_keys : gmap string string :=
  {["OPENROUTER_API_KEY" := ""; "OPENAI_API_KEY" := "sk-openai"]}.

(** * Properties *)

Section Properties.

Context (E : Externals).

Implicit Types (m : Machine) (o : TradingAgentsGraph) (w : World).
Implicit Types (r : Role) (chunks trace : list AgentState).

(** ** The streaming loop *)

Lemma has_messages_last (chunk : AgentState) :
  has_messages chunk = true → ∃ x, last (messages chunk) = Some x.
Proof.
  unfold has_messages. destruct (messages chunk) as [|a l] eqn:Hm; simpl; [done|].
  intros _. destruct (last (a :: l)) eqn:Hl; [eauto|].
  apply last_None in Hl. done.
Qed.

Lemma has_messages_false (chunk : AgentState) :
  has_messages chunk = false ↔ messages chunk = [].
Proof.
  unfold has_messages. destruct (messages chunk); simpl; split; done.
Qed.

(** The loop keeps, in order, the chunks that have messages, and prints
    the last message of each; it changes nothing else. *)
Lemma trace_loop_spec chunks trace m :
  trace_loop chunks trace m =
    (Ok (trace ++ filter (λ c, has_messages c = true) chunks),
     {| self := self m;
        world := set_stdout (stdout (world m) ++ printed chunks) (world m) |}).
Proof.
  revert trace m. induction chunks as [|chunk rest IH]; intros trace m.
  - simpl. unfold mret, Run_ret. rewrite !app_nil_r.
    destruct m as [o [s f out]]. done.
  - simpl. destruct (length (messages chunk) =? 0) eqn:Hlen.
    + rewrite IH. rewrite filter_cons_False.
      2:{ unfold has_messages. rewrite Hlen. done. }
      unfold printed. simpl.
      apply Nat.eqb_eq in Hlen. apply length_zero_iff_nil in Hlen.
      rewrite Hlen. done.
    + assert (Hh : has_messages chunk = true).
      { unfold has_messages. rewrite Hlen. done. }
      destruct (has_messages_last chunk Hh) as [x Hx].
      rewrite filter_cons_True by done.
      unfold printed. simpl. rewrite Hx. simpl.
      unfold mbind, Run_bind, pretty_print, get_world, put_world.
      unfold mbind, Run_bind. simpl. rewrite IH. simpl.
      rewrite <- !app_assoc. done.
Qed.

(** ** [propagate], step by step *)

(** The whole of [propagate] on a machine: the instrument is stored first;
    then the initial state, the run and the mode decide [final_state];
    then the current state, the log and the signal follow. *)
Lemma propagate_unfold (c d : string) m :
  propagate E c d m =
    let o1 := set_ticker (Some c) (self m) in
    match create_initial_state E c d with
    | Err e => (Err e, {| self := o1; world := world m |})
    | Ok init =>
        let run := graph_run E (graph o1) (stores (world m)) init in
        let w1 :=
          if debug o1
          then set_stdout (stdout (world m) ++ printed (stream_chunks run)) (world m)
          else world m in
        match final_state_of (debug o1) run with
        | Err e => (Err e, {| self := o1; world := w1 |})
        | Ok fs =>
            let o2 :=
              set_log_states_dict (<[d := log_entry fs]> (log_states_dict o1))
                (set_curr_state (Some fs) o1) in
            let w2 :=
              set_files (<[log_path (Some c) := log_states_dict o2]> (files w1)) w1 in
            (match signal_process E (final_trade_decision fs) (Some c) with
             | Ok signal => Ok (fs, signal)
             | Err e => Err e
             end,
             {| self := o2; world := w2 |})
        end
    end.
Proof.
  destruct m as [o w]. unfold propagate.
  unfold mbind, Run_bind, get_self, put_self, get_world, lift. simpl.
  destruct (create_initial_state E c d) as [init|e]; [|done]. simpl.
  destruct (debug o) eqn:Hdbg; simpl.
  - rewrite trace_loop_spec. simpl.
    destruct (graph_run E (graph o) (stores w) init) as [ys e|mid t]; simpl.
    + unfold raise. done.
    + unfold mret, Run_ret. simpl.
      destruct (py_last _) as [fs|e]; simpl; [|done].
      unfold _log_state, process_signal, lift, mbind, Run_bind, get_self, put_self,
        get_world, put_world. simpl.
      destruct (signal_process E (final_trade_decision fs) (Some c)); done.
  - destruct (graph_run E (graph o) (stores w) init) as [ys e|mid t]; simpl.
    + unfold raise. done.
    + unfold _log_state, process_signal, lift, mbind, Run_bind, get_self, put_self,
        get_world, put_world. simpl.
      destruct (signal_process E (final_trade_decision t) (Some c)); done.
Qed.

Lemma propagate_no_initial_state (c d : string) m e :
  create_initial_state E c d = Err e →
  propagate E c d m =
    (Err e, {| self := set_ticker (Some c) (self m); world := world m |}).
Proof. intros Hinit. rewrite propagate_unfold. simpl. rewrite Hinit. done. Qed.

Lemma propagate_no_final_state (c d : string) m init e :
  create_initial_state E c d = Ok init →
  final_state_of (debug (self m))
    (graph_run E (graph (self m)) (stores (world m)) init) = Err e →
  propagate E c d m =
    (Err e,
     {| self := set_ticker (Some c) (self m);
        world := world_after_run (debug (self m))
                   (graph_run E (graph (self m)) (stores (world m)) init) (world m) |}).
Proof.
  intros Hinit Hfinal. rewrite propagate_unfold. cbv zeta. rewrite Hinit.
  change (debug (set_ticker (Some c) (self m))) with (debug (self m)).
  change (graph (set_ticker (Some c) (self m))) with (graph (self m)).
  rewrite Hfinal. done.
Qed.

Lemma propagate_final_state (c d : string) m init fs :
  create_initial_state E c d = Ok init →
  final_state_of (debug (self m))
    (graph_run E (graph (self m)) (stores (world m)) init) = Ok fs →
  propagate E c d m =
    (match signal_process E (final_trade_decision fs) (Some c) with
     | Ok signal => Ok (fs, signal)
     | Err e => Err e
     end,
     let w1 := world_after_run (debug (self m))
                 (graph_run E (graph (self m)) (stores (world m)) init) (world m) in
     let log := <[d := log_entry fs]> (log_states_dict (self m)) in
     {| self := set_log_states_dict log
                  (set_curr_state (Some fs) (set_ticker (Some c) (self m)));
        world := set_files (<[log_path (Some c) := log]> (files w1)) w1 |}).
Proof.
  intros Hinit Hfinal. rewrite propagate_unfold. cbv zeta. rewrite Hinit.
  change (debug (set_ticker (Some c) (self m))) with (debug (self m)).
  change (graph (set_ticker (Some c) (self m))) with (graph (self m)).
  rewrite Hfinal. done.
Qed.

Lemma final_state_of_failed (dbg : bool) (yielded : list AgentState) (e : exn) :
  final_state_of dbg (Failed yielded e) = Err e.
Proof. done. Qed.

Lemma last_filter_None (chunks : list AgentState) :
  last (filter (λ c, has_messages c = true) chunks) = None ↔
  ∀ chunk, chunk ∈ chunks → messages chunk = [].
Proof.
  rewrite last_None. split.
  - intros Hnil chunk Hin. apply has_messages_false.
    destruct (has_messages chunk) eqn:Hh; [|done].
    assert (chunk ∈ filter (λ c, has_messages c = true) chunks) as Hf
      by (apply list_elem_of_filter; done).
    rewrite Hnil in Hf. by apply elem_of_nil in Hf.
  - intros Hall. induction chunks as [|chunk rest IH]; [done|].
    rewrite filter_cons_False.
    + apply IH. intros c' Hc'. apply Hall. by right.
    + rewrite (proj2 (has_messages_false chunk)); [done|]. apply Hall. by left.
Qed.

Lemma last_snoc_kept (mid : list AgentState) (t : AgentState) :
  messages t ≠ [] →
  last (filter (λ c, has_messages c = true) (mid ++ [t])) = Some t.
Proof.
  intros Ht. rewrite filter_app. rewrite (filter_cons_True _ t).
  - rewrite filter_nil. apply last_snoc.
  - destruct (has_messages t) eqn:Hh; [done|].
    apply has_messages_false in Hh. done.
Qed.

Lemma never_shrinks_head (a : AgentState) (l : list AgentState) :
  never_shrinks (a :: l) = true →
  ∀ x, x ∈ l → length (messages a) ≤ length (messages x).
Proof.
  revert a. induction l as [|b l IH]; intros a Hns x Hin.
  - by apply elem_of_nil in Hin.
  - change (((length (messages a) <=? length (messages b)) && never_shrinks (b :: l))
            = true) in Hns.
    apply andb_true_iff in Hns as [Hab Hns]. apply Nat.leb_le in Hab.
    apply elem_of_cons in Hin as [->|Hin]; [done|].
    specialize (IH b Hns x Hin). lia.
Qed.

(** A run that keeps the transcript ends on a state with messages, which
    both modes take as [final_state]. *)
Lemma keeps_transcript_terminal (init : AgentState) (mid : list AgentState)
    (t : AgentState) :
  keeps_transcript init (Completed mid t) = true → messages t ≠ [].
Proof.
  unfold keeps_transcript. intros Hk.
  apply andb_true_iff in Hk as [Hseed Hns]. apply Nat.eqb_eq in Hseed.
  pose proof (never_shrinks_head init (mid ++ [t]) Hns t) as Hle.
  assert (Hin : t ∈ mid ++ [t]) by (apply elem_of_app; right; by left).
  specialize (Hle Hin). intros Hnil. rewrite Hnil in Hle. simpl in Hle. lia.
Qed.

Lemma final_state_of_kept (dbg : bool) (mid : list AgentState) (t : AgentState) :
  messages t ≠ [] → final_state_of dbg (Completed mid t) = Ok t.
Proof.
  intros Ht. destruct dbg; [|done]. unfold final_state_of, py_last.
  by rewrite last_snoc_kept.
Qed.

(** C2. Every run of [propagate] that reaches a terminal state, in batch
    mode and in streaming mode, stores that terminal state as the current
    state of the orchestrator and returns the pair of the terminal state
    and the canonical signal, which is the signal extractor applied to the
    [final_trade_decision] of the terminal state and to the instrument.
    The run of the graph keeps the transcript as the specification has
    it. *)
Theorem propagate_stores_and_returns (c d : string) m init mid t signal :
  create_initial_state E c d = Ok init →
  graph_run E (graph (self m)) (stores (world m)) init = Completed mid t →
  keeps_transcript init (Completed mid t) = true →
  signal_process E (final_trade_decision t) (Some c) = Ok signal →
  fst (propagate E c d m) = Ok (t, signal) ∧
  curr_state (self (snd (propagate E c d m))) = Some t ∧
  fst (process_signal E (final_trade_decision t) (Some c) (snd (propagate E c d m)))
    = Ok signal.
Proof.
  intros Hinit Hrun Hkeep Hsig.
  rewrite (propagate_final_state c d m init t);
    [|done|rewrite Hrun; by apply final_state_of_kept, (keeps_transcript_terminal init mid)].
  unfold process_signal, lift. simpl. rewrite !Hsig. done.
Qed.

(** C3. For the same instrument, date and stage behaviour, the streaming
    mode and the batch mode of [propagate] produce the identical terminal
    state: they return the same result, and both store the terminal state
    of the run as the current state. The run of the graph keeps the
    transcript as the specification has it. *)
Theorem streaming_agrees_with_batch (c d : string) o w init mid t :
  create_initial_state E c d = Ok init →
  graph_run E (graph o) (stores w) init = Completed mid t →
  keeps_transcript init (Completed mid t) = true →
  fst (propagate E c d {| self := set_debug true o; world := w |}) =
    fst (propagate E c d {| self := set_debug false o; world := w |}) ∧
  (∀ fs signal,
     fst (propagate E c d {| self := set_debug true o; world := w |}) = Ok (fs, signal) →
     fs = t) ∧
  curr_state (self (snd (propagate E c d {| self := set_debug true o; world := w |})))
    = Some t ∧
  curr_state (self (snd (propagate E c d {| self := set_debug false o; world := w |})))
    = Some t.
Proof.
  intros Hinit Hrun Hkeep.
  pose proof (keeps_transcript_terminal init mid t Hkeep) as Ht.
  rewrite (propagate_final_state c d {| self := set_debug true o; world := w |} init t)
    by (try done; simpl; rewrite Hrun; by apply final_state_of_kept).
  rewrite (propagate_final_state c d {| self := set_debug false o; world := w |} init t)
    by (try done; simpl; rewrite Hrun; by apply final_state_of_kept).
  simpl. split; [done|]. split; [|done].
  intros fs signal. destruct (signal_process E _ _); [|done]. by intros [= <- _].
Qed.

(** C4. When the execution of the graph raises an error before it reaches
    a terminal state, [propagate] raises that error, and the current state
    of the orchestrator is the one it had before the call; neither the log
    nor the log files have changed, so that no partial state is exposed. *)
Theorem failed_run_keeps_current_state (c d : string) m init yielded e :
  create_initial_state E c d = Ok init →
  graph_run E (graph (self m)) (stores (world m)) init = Failed yielded e →
  fst (propagate E c d m) = Err e ∧
  curr_state (self (snd (propagate E c d m))) = curr_state (self m) ∧
  log_states_dict (self (snd (propagate E c d m))) = log_states_dict (self m) ∧
  files (world (snd (propagate E c d m))) = files (world m).
Proof.
  intros Hinit Hrun.
  rewrite (propagate_no_final_state c d m init e);
    [|done|rewrite Hrun; apply final_state_of_failed].
  simpl. unfold world_after_run. destruct (debug (self m)); done.
Qed.

(** C9. In streaming mode the chunks whose [messages] are empty are left
    out of the trace and the result is the last chunk kept; [propagate]
    succeeds only if some streamed chunk has a non-empty [messages]
    sequence, and when a run completes with every chunk empty, [trace[-1]]
    raises [IndexError] on the empty trace instead of returning a terminal
    state. *)
Theorem streaming_needs_messages (c d : string) m init :
  debug (self m) = true →
  create_initial_state E c d = Ok init →
  let run := graph_run E (graph (self m)) (stores (world m)) init in
  let chunks := stream_chunks run in
  let trace := filter (λ chunk, has_messages chunk = true) chunks in
  (∀ chunk, chunk ∈ trace ↔ chunk ∈ chunks ∧ messages chunk ≠ []) ∧
  (∀ fs signal, fst (propagate E c d m) = Ok (fs, signal) →
     last trace = Some fs ∧ ∃ chunk, chunk ∈ chunks ∧ messages chunk ≠ []) ∧
  (∀ mid t, run = Completed mid t →
     fst (propagate E c d m) =
       match last trace with
       | None => Err IndexError
       | Some fs =>
           match signal_process E (final_trade_decision fs) (Some c) with
           | Ok signal => Ok (fs, signal)
           | Err e => Err e
           end
       end) ∧
  (∀ mid t, run = Completed mid t →
     (∀ chunk, chunk ∈ chunks → messages chunk = []) →
     fst (propagate E c d m) = Err IndexError ∧
     curr_state (self (snd (propagate E c d m))) = curr_state (self m)).
Proof.
  intros Hdbg Hinit run chunks trace.
  assert (Hmem : ∀ chunk, chunk ∈ trace ↔ chunk ∈ chunks ∧ messages chunk ≠ []).
  { intros chunk. unfold trace. rewrite list_elem_of_filter.
    split; intros [H1 H2]; split; try done.
    - intros Hnil. apply has_messages_false in Hnil. congruence.
    - destruct (has_messages chunk) eqn:Hh; [done|].
      apply has_messages_false in Hh. done. }
  assert (Hfinal : ∀ mid t, run = Completed mid t →
                   final_state_of (debug (self m)) run = py_last trace).
  { intros mid t Hrun. rewrite Hdbg. unfold trace, chunks. rewrite Hrun. done. }
  assert (Hres : ∀ mid t, run = Completed mid t →
    fst (propagate E c d m) =
      match last trace with
      | None => Err IndexError
      | Some fs =>
          match signal_process E (final_trade_decision fs) (Some c) with
          | Ok signal => Ok (fs, signal)
          | Err e => Err e
          end
      end).
  { intros mid t Hrun. specialize (Hfinal mid t Hrun). unfold py_last in Hfinal.
    destruct (last trace) as [fs|] eqn:Hl.
    - by rewrite (propagate_final_state c d m init fs).
    - by rewrite (propagate_no_final_state c d m init IndexError). }
  split; [done|]. split; [|split; [done|]].
  - intros fs signal Hok.
    destruct run as [ys e|mid t] eqn:Hrun.
    + rewrite (propagate_no_final_state c d m init e) in Hok; [done|done|].
      fold run. rewrite Hrun. apply final_state_of_failed.
    + rewrite (Hres mid t eq_refl) in Hok.
      destruct (last trace) as [fs'|] eqn:Hl; [|done].
      destruct (signal_process E _ _); [|done].
      injection Hok as -> _. split; [done|].
      exists fs. apply Hmem. by apply last_Some_elem_of.
  - intros mid t Hrun Hall. apply last_filter_None in Hall. fold trace in Hall.
    split; [by rewrite (Hres mid t Hrun), Hall|].
    rewrite (propagate_no_final_state c d m init IndexError); [done|done|].
    fold run. rewrite (Hfinal mid t Hrun). unfold py_last. by rewrite Hall.
Qed.

(** C10. [propagate] stores the instrument before it executes the graph:
    when the run then fails, the stored instrument is that of the failed
    run, while the stored current state is still the one of the run
    before. *)
Theorem failed_run_changes_ticker (c d : string) m init yielded e :
  create_initial_state E c d = Ok init →
  graph_run E (graph (self m)) (stores (world m)) init = Failed yielded e →
  fst (propagate E c d m) = Err e ∧
  ticker (self (snd (propagate E c d m))) = Some c ∧
  curr_state (self (snd (propagate E c d m))) = curr_state (self m).
Proof.
  intros Hinit Hrun.
  rewrite (propagate_no_final_state c d m init e);
    [|done|rewrite Hrun; apply final_state_of_failed].
  simpl. unfold world_after_run. destruct (debug (self m)); done.
Qed.

(** ** The run log *)

Lemma propagate_log_frame (c d d' : string) m :
  d' ≠ d →
  log_states_dict (self (snd (propagate E c d m))) !! d' = log_states_dict (self m) !! d'.
Proof.
  intros Hne. rewrite propagate_unfold. cbv zeta.
  destruct (create_initial_state E c d) as [init|e]; [|done].
  destruct (final_state_of _ _) as [fs|e]; [|done].
  simpl. by rewrite lookup_insert_ne.
Qed.

Lemma runs_log_frame (calls : list (string * string)) (d' : string) m :
  (∀ call, call ∈ calls → call.2 ≠ d') →
  log_states_dict (self (runs E calls m)) !! d' = log_states_dict (self m) !! d'.
Proof.
  revert m. induction calls as [|[c d] rest IH]; intros m Hdates; [done|].
  simpl. rewrite IH.
  - apply propagate_log_frame. intros Heq.
    apply (Hdates (c, d)); [by left|]. by simpl.
  - intros call Hin. apply Hdates. by right.
Qed.

Lemma append_length (s t : string) :
  String.length (s +:+ t) = String.length s + String.length t.
Proof. induction s as [|a s IH]; simpl; [done|]. by rewrite IH. Qed.

Lemma append_cancel_r (s1 s2 t : string) : s1 +:+ t = s2 +:+ t → s1 = s2.
Proof.
  revert s2. induction s1 as [|a s1 IH]; intros [|b s2] Heq; simpl in *.
  - done.
  - apply (f_equal String.length) in Heq.
    rewrite ?append_length in Heq. simpl in Heq. rewrite ?append_length in Heq. lia.
  - apply (f_equal String.length) in Heq.
    rewrite ?append_length in Heq. simpl in Heq. rewrite ?append_length in Heq. lia.
  - injection Heq as -> Heq. f_equal. by apply IH.
Qed.

Lemma log_path_inj (c c' : string) : log_path (Some c) = log_path (Some c') → c = c'.
Proof.
  unfold log_path, ticker_text. simpl. intros Heq.
  apply (append_cancel_r c c' "/TradingAgentsStrategy_logs/full_states_log.json").
  repeat (injection Heq as Heq). done.
Qed.

Lemma log_entry_is_snapshot (s : AgentState) : is_snapshot (log_entry s) s.
Proof.
  unfold is_snapshot, log_entry. simpl.
  destruct (investment_debate_state s), (risk_debate_state s). done.
Qed.

(** C7, amended. The orchestrator keeps one mapping from [asOfDate] to a
    snapshot of the terminal state (reports, both debate histories, plan of
    the trader, final decision), and each run that reaches its terminal
    state stores its snapshot under its date and writes the whole mapping
    to the log file of its instrument, one file per instrument. An entry
    written by an earlier run is still present, unmodified, in the mapping
    and in the file written by a later run, as long as no later run has the
    same [asOfDate]; a run with the same date replaces the entry of that
    date by its own snapshot. *)
Theorem run_log_keeps_other_dates (c d : string) m init fs :
  create_initial_state E c d = Ok init →
  final_state_of (debug (self m))
    (graph_run E (graph (self m)) (stores (world m)) init) = Ok fs →
  let m1 := snd (propagate E c d m) in
  is_snapshot (log_entry fs) fs ∧
  log_states_dict (self m1) = <[d := log_entry fs]> (log_states_dict (self m)) ∧
  files (world m1) !! log_path (Some c) = Some (log_states_dict (self m1)) ∧
  (∀ c', log_path (Some c') = log_path (Some c) → c' = c) ∧
  (∀ p, p ≠ log_path (Some c) → files (world m1) !! p = files (world m) !! p) ∧
  (∀ d', d' ≠ d →
     log_states_dict (self m1) !! d' = log_states_dict (self m) !! d') ∧
  (∀ later c2 d2 init2 fs2,
     (∀ call, call ∈ later → call.2 ≠ d) → d2 ≠ d →
     let m2 := runs E later m1 in
     create_initial_state E c2 d2 = Ok init2 →
     final_state_of (debug (self m2))
       (graph_run E (graph (self m2)) (stores (world m2)) init2) = Ok fs2 →
     ∃ log,
       files (world (snd (propagate E c2 d2 m2))) !! log_path (Some c2) = Some log ∧
       log !! d = Some (log_entry fs) ∧
       log !! d2 = Some (log_entry fs2)).
Proof.
  intros Hinit Hfinal m1.
  assert (Hlog : log_states_dict (self m1) = <[d := log_entry fs]> (log_states_dict (self m))).
  { unfold m1. rewrite (propagate_final_state c d m init fs) by done. done. }
  split; [apply log_entry_is_snapshot|]. split; [done|]. split.
  { unfold m1. rewrite (propagate_final_state c d m init fs) by done.
    simpl. by rewrite lookup_insert_eq. }
  split; [intros c'; apply log_path_inj|]. split.
  { intros p Hp. unfold m1. rewrite (propagate_final_state c d m init fs) by done.
    simpl. rewrite lookup_insert_ne by done.
    unfold world_after_run. destruct (debug (self m)); done. }
  split; [intros d' Hd'; by apply propagate_log_frame|].
  intros later c2 d2 init2 fs2 Hlater Hd2 m2 Hinit2 Hfinal2.
  exists (<[d2 := log_entry fs2]> (log_states_dict (self m2))).
  rewrite (propagate_final_state c2 d2 m2 init2 fs2) by done. simpl.
  split; [by rewrite lookup_insert_eq|]. split; [|by rewrite lookup_insert_eq].
  rewrite lookup_insert_ne by done.
  unfold m2. rewrite runs_log_frame by done.
  rewrite Hlog. by rewrite lookup_insert_eq.
Qed.

(** ** Reflection *)

Lemma reflect_role_spec r (ret : Returns) m :
  reflect_role E r ret m =
    match outcome E ret m r with
    | Err e => (Err e, m)
    | Ok l =>
        (Ok tt, {| self := self m;
                   world := with_contents (memory_of (self m) r) l (world m) |})
    end.
Proof.
  destruct m as [o w]. unfold reflect_role, outcome.
  unfold mbind, Run_bind, get_self, get_world. simpl.
  destruct (reflector E r _ _ _) as [l|e]; [|done].
  destruct (memory_of o r); done.
Qed.

(** A step leaves alone every collection but the one of its handle. *)
Lemma reflect_role_frame r (ret : Returns) m (n : string) :
  memory_of (self m) r ≠ Some n →
  stores (world (snd (reflect_role E r ret m))) !! n = stores (world m) !! n.
Proof.
  intros Hn. rewrite reflect_role_spec.
  destruct (outcome E ret m r) as [l|e]; [|done]. simpl.
  unfold with_contents. destruct (memory_of (self m) r) as [n0|]; [|done].
  simpl. rewrite lookup_insert_ne; [done|]. congruence.
Qed.

Lemma reflect_role_self r (ret : Returns) m :
  self (snd (reflect_role E r ret m)) = self m ∧
  files (world (snd (reflect_role E r ret m))) = files (world m) ∧
  stdout (world (snd (reflect_role E r ret m))) = stdout (world m).
Proof.
  rewrite reflect_role_spec.
  destruct (outcome E ret m r) as [l|e]; [|done]. simpl.
  unfold with_contents. destruct (memory_of (self m) r); done.
Qed.

(** The answer for a role depends on its own collection only. *)
Lemma outcome_frame r (ret : Returns) m m' :
  self m' = self m →
  (∀ n, memory_of (self m) r = Some n →
        stores (world m') !! n = stores (world m) !! n) →
  outcome E ret m' r = outcome E ret m r.
Proof.
  intros Hself Hstores. unfold outcome. rewrite Hself.
  destruct (memory_of (self m) r) as [n|] eqn:Hh; simpl; [|done].
  by rewrite (Hstores n).
Qed.

Lemma reflect_and_remember_seq (ret : Returns) m :
  reflect_and_remember E ret m = reflect_seq E all_roles ret m.
Proof.
  unfold reflect_and_remember, all_roles. simpl.
  unfold mbind, Run_bind.
  repeat (match goal with
          | |- context [reflect_role E ?r ret ?x] =>
              destruct (reflect_role E r ret x) as [[[]|?] ?]
          end; try done).
Qed.

Lemma reflect_seq_app (rs1 rs2 : list Role) (ret : Returns) m :
  reflect_seq E (rs1 ++ rs2) ret m =
    match reflect_seq E rs1 ret m with
    | (Ok _, m1) => reflect_seq E rs2 ret m1
    | (Err e, m1) => (Err e, m1)
    end.
Proof.
  revert m. induction rs1 as [|r rest IH]; intros m; [done|].
  simpl. unfold mbind, Run_bind.
  destruct (reflect_role E r ret m) as [[[]|e] m1]; [apply IH|done].
Qed.

(** When every role of a list answers, the loop succeeds: each role's
    collection holds what its own method answered on the contents it had
    at the start, and nothing else has changed. *)
Lemma reflect_seq_ok (rs : list Role) (ret : Returns) m :
  NoDup rs →
  handles_distinct (self m) →
  (∀ r, r ∈ rs → is_Ok (outcome E ret m r) = true) →
  fst (reflect_seq E rs ret m) = Ok tt ∧
  self (snd (reflect_seq E rs ret m)) = self m ∧
  files (world (snd (reflect_seq E rs ret m))) = files (world m) ∧
  (∀ n, (∀ r, r ∈ rs → memory_of (self m) r ≠ Some n) →
        stores (world (snd (reflect_seq E rs ret m))) !! n = stores (world m) !! n) ∧
  (∀ r n l, r ∈ rs → memory_of (self m) r = Some n → outcome E ret m r = Ok l →
        stores (world (snd (reflect_seq E rs ret m))) !! n = Some l).
Proof.
  revert m. induction rs as [|r0 rest IH]; intros m Hnd Hdist Hok.
  { simpl. repeat split; try done. intros r n l Hin. by apply elem_of_nil in Hin. }
  apply NoDup_cons in Hnd as [Hr0 Hnd].
  simpl. unfold mbind, Run_bind.
  pose proof (reflect_role_spec r0 ret m) as Hstep.
  pose proof (Hok r0 ltac:(by left)) as Hok0.
  destruct (outcome E ret m r0) as [l0|e0] eqn:Hout0; [|done].
  rewrite Hstep.
  set (m1 := {| self := self m;
                world := with_contents (memory_of (self m) r0) l0 (world m) |}).
  assert (Hframe1 : ∀ n, memory_of (self m) r0 ≠ Some n →
                         stores (world m1) !! n = stores (world m) !! n).
  { intros n Hn. unfold m1, with_contents. simpl.
    destruct (memory_of (self m) r0) as [n0|]; [|done].
    simpl. rewrite lookup_insert_ne; [done|]. congruence. }
  assert (Hout : ∀ r, r ∈ rest → outcome E ret m1 r = outcome E ret m r).
  { intros r Hin. apply outcome_frame; [done|].
    intros n Hn. apply Hframe1. intros Hn0.
    assert (r0 = r) as -> by (by apply (Hdist r0 r n)). done. }
  destruct (IH m1) as (Hres & Hself & Hfiles & Hframe & Hnew); try done.
  { intros r Hin. rewrite Hout by done. apply Hok. by right. }
  split; [done|]. split; [done|]. split.
  { rewrite Hfiles. unfold m1, with_contents. simpl.
    destruct (memory_of (self m) r0); done. }
  split.
  - intros n Hn. rewrite Hframe.
    + apply Hframe1. apply Hn. by left.
    + intros r Hin. apply Hn. by right.
  - intros r n l Hin Hh Houtr. apply elem_of_cons in Hin as [->|Hin].
    + rewrite Hframe.
      * unfold m1, with_contents. rewrite Hh. simpl.
        rewrite lookup_insert_eq. congruence.
      * intros r Hin Hr. simpl in Hr.
        assert (r0 = r) as -> by (by apply (Hdist r0 r n)). done.
    + apply (Hnew r n l); try done. by rewrite Hout.
Qed.

Lemma all_roles_NoDup : NoDup all_roles.
Proof. apply (bool_decide_unpack _). by vm_compute. Qed.

Lemma all_roles_complete (r : Role) : r ∈ all_roles.
Proof. unfold all_roles. destruct r; repeat constructor. Qed.

(** ** What the constructor leaves *)

Lemma memory_name_inj (r r' : Role) : memory_name r = memory_name r' → r = r'.
Proof. destruct r, r'; simpl; intros Heq; try done; discriminate Heq. Qed.

Lemma init_fields (sel : list string) (dbg : bool) (cfg : option Config)
    (env : gmap string string) w o w' :
  __init__ E sel dbg cfg env w = (Ok o, w') →
  debug o = dbg ∧ config o = default (default_config E) cfg ∧
  curr_state o = None ∧ ticker o = None ∧ log_states_dict o = ∅ ∧
  memories_by_config o.
Proof.
  unfold __init__. destruct (init_llms _ _ _) as [[deep quick]|e]; [|done].
  unfold init_memories, memories_by_config.
  destruct (default true (memory_enabled (default (default_config E) cfg))) eqn:Hen;
    destruct (setup_graph E _); try done;
    intros [= <- <-]; simpl; rewrite Hen; repeat split; try done; intros []; done.
Qed.

Lemma memories_distinct o : memories_by_config o → handles_distinct o.
Proof.
  intros Hmem r1 r2 n. rewrite !Hmem.
  destruct (default true _); [|done].
  intros [= <-] [= Heq]. symmetry. by apply memory_name_inj.
Qed.

Lemma propagate_keeps_memories (c d : string) m :
  config (self (snd (propagate E c d m))) = config (self m) ∧
  ∀ r, memory_of (self (snd (propagate E c d m))) r = memory_of (self m) r.
Proof.
  rewrite propagate_unfold. cbv zeta.
  destruct (create_initial_state E c d); [|by split; [|intros []]].
  destruct (final_state_of _ _); by split; [|intros []].
Qed.

Lemma reflect_seq_self (rs : list Role) (ret : Returns) m :
  self (snd (reflect_seq E rs ret m)) = self m.
Proof.
  revert m. induction rs as [|r rest IH]; intros m; [done|].
  simpl. unfold mbind, Run_bind.
  pose proof (reflect_role_self r ret m) as (Hself & _).
  destruct (reflect_role E r ret m) as [[[]|e] m1]; simpl in *; [|done].
  by rewrite IH.
Qed.

(** Every machine that the methods produce has the memories of its
    configuration, hence no handle shared by two roles. *)
Lemma reachable_memories m : reachable E m → memories_by_config (self m).
Proof.
  induction 1 as [sel dbg cfg env w o w' Hinit|m c d _ IH|m ret _ IH].
  - by apply init_fields in Hinit as (_ & _ & _ & _ & _ & Hmem).
  - destruct (propagate_keeps_memories c d m) as [Hcfg Hmem].
    intros r. rewrite Hmem, Hcfg. apply IH.
  - rewrite reflect_and_remember_seq, reflect_seq_self. apply IH.
Qed.

(** C1, amended. [reflect_and_remember] checks nothing itself and raises
    no [NoPriorRunError]: called before any run has completed, it hands the
    absent current state to the reflection of the bull researcher first;
    when that call raises, as the reflection engine does on an absent state
    (the [TypeError] of subscripting [None]), [reflect_and_remember] fails
    with that error and the machine is as before, so that no memory store
    is mutated and none of the five role stores receives an entry. *)
Theorem reflect_before_any_run (ret : Returns) m e :
  curr_state (self m) = None →
  reflector E Bull None ret
    (memory_contents (stores (world m)) (bull_memory (self m))) = Err e →
  reflect_and_remember E ret m = (Err e, m).
Proof.
  intros Hnone Hbull. unfold reflect_and_remember, mbind, Run_bind.
  rewrite reflect_role_spec. unfold outcome. simpl. rewrite Hnone, Hbull. done.
Qed.

(** C5, amended. Reflection over one role mutates only that role's memory
    store: a reflection step leaves unchanged the contents of the store of
    every other role, and after a [reflect_and_remember] in which every
    role answers, each store holds what the reflection of its own role
    made of it. When the memories are enabled (the default) the five
    reflector calls are each passed the store of their own role, and the
    five stores are distinct; when the configuration disables the
    memories, each call is passed no store ([None]) and no store
    changes. *)
Theorem reflection_isolated m :
  reachable E m →
  let enabled := default true (memory_enabled (config (self m))) in
  (∀ r, memory_of (self m) r = if enabled then Some (memory_name r) else None) ∧
  (∀ r r', r ≠ r' → memory_name r ≠ memory_name r') ∧
  (∀ w r r' n (ret : Returns),
     r ≠ r' → memory_of (self m) r' = Some n →
     stores (world (snd (reflect_role E r ret {| self := self m; world := w |}))) !! n
       = stores w !! n) ∧
  (∀ ret : Returns,
     (∀ r, is_Ok (outcome E ret m r) = true) →
     fst (reflect_and_remember E ret m) = Ok tt ∧
     ∀ r n l, memory_of (self m) r = Some n → outcome E ret m r = Ok l →
       stores (world (snd (reflect_and_remember E ret m))) !! n = Some l) ∧
  (enabled = false →
   ∀ w r (ret : Returns),
     memory_contents (stores w) (memory_of (self m) r) = None ∧
     stores (world (snd (reflect_role E r ret {| self := self m; world := w |})))
       = stores w).
Proof.
  intros Hreach enabled.
  pose proof (reachable_memories m Hreach) as Hmem.
  pose proof (memories_distinct _ Hmem) as Hdist.
  split; [done|]. split.
  { intros r r' Hne Heq. by apply Hne, memory_name_inj. }
  split.
  { intros w r r' n ret Hne Hn.
    apply (reflect_role_frame r ret {| self := self m; world := w |} n).
    simpl. intros Hr. apply Hne. by apply (Hdist r r' n). }
  split.
  { intros ret Hok. rewrite reflect_and_remember_seq.
    destruct (reflect_seq_ok all_roles ret m) as (Hres & _ & _ & _ & Hnew);
      try done.
    { apply all_roles_NoDup. }
    split; [done|]. intros r n l Hn Hout. apply (Hnew r n l); try done.
    apply all_roles_complete. }
  intros Hoff w r ret.
  assert (Hnone : memory_of (self m) r = None).
  { rewrite Hmem. fold enabled. by rewrite Hoff. }
  rewrite Hnone. split; [done|].
  rewrite reflect_role_spec. destruct (outcome E ret _ r); [|done].
  simpl. by rewrite Hnone.
Qed.

(** C6, amended. [reflect_and_remember] reflects the roles in the order
    bull researcher, bear researcher, trader, investment judge, risk
    manager, and stops at the first role whose reflection raises: the error
    reaches the caller, the roles before it have received their entries,
    and the failing role and every role after it receive nothing, whether
    or not their own reflection would have succeeded. *)
Theorem reflection_stops_at_first_failure (ret : Returns) m
    (before after : list Role) r e :
  reachable E m →
  all_roles = before ++ r :: after →
  (∀ r', r' ∈ before → is_Ok (outcome E ret m r') = true) →
  outcome E ret m r = Err e →
  fst (reflect_and_remember E ret m) = Err e ∧
  (∀ r' n l, r' ∈ before → memory_of (self m) r' = Some n →
     outcome E ret m r' = Ok l →
     stores (world (snd (reflect_and_remember E ret m))) !! n = Some l) ∧
  (∀ r' n, r' ∈ r :: after → memory_of (self m) r' = Some n →
     stores (world (snd (reflect_and_remember E ret m))) !! n = stores (world m) !! n).
Proof.
  intros Hreach Hsplit Hok Hfail.
  pose proof (memories_distinct _ (reachable_memories m Hreach)) as Hdist.
  assert (Hnd : NoDup (before ++ r :: after)).
  { rewrite <- Hsplit. apply all_roles_NoDup. }
  apply NoDup_app in Hnd as (Hnd1 & Hdisj & Hnd2).
  rewrite reflect_and_remember_seq, Hsplit, reflect_seq_app.
  destruct (reflect_seq_ok before ret m) as (Hres & Hself & _ & Hframe & Hnew);
    try done.
  destruct (reflect_seq E before ret m) as [res m1]. simpl in *. subst res.
  assert (Hlater : ∀ r' n, r' ∈ r :: after → memory_of (self m) r' = Some n →
                           stores (world m1) !! n = stores (world m) !! n).
  { intros r' n Hin Hn. apply Hframe. intros r0 Hin0 Hr0.
    assert (r0 = r') as -> by (by apply (Hdist r0 r' n)).
    by apply (Hdisj r'). }
  assert (Hout : outcome E ret m1 r = outcome E ret m r).
  { apply outcome_frame; [done|]. intros n Hn. apply (Hlater r); [by left|done]. }
  unfold mbind, Run_bind. rewrite reflect_role_spec, Hout, Hfail. simpl.
  split; [done|]. split; [|done].
  intros r' n l Hin Hn Houtr. by apply (Hnew r' n l).
Qed.

(** ** The provider chain *)

Ltac chain_cases H :=
  unfold provider_branch in H;
  repeat match type of H with
         | (if ?b then _ else _) = _ => destruct b eqn:?; try discriminate H
         end.

Ltac follow_chain :=
  unfold init_llms; cbv zeta;
  repeat match goal with
         | Hb : ?b = _ |- context [if ?b then _ else _] =>
             lazymatch b with
             | negb _ => fail
             | _ => rewrite Hb
             end
         end.

Lemma init_llms_unsupported (cfg : Config) (env : gmap string string) :
  provider_branch E (llm_provider cfg) = None →
  init_llms E cfg env =
    Err (ValueError ("Unsupported LLM provider: " +:+ llm_provider cfg)).
Proof. intros H. chain_cases H. follow_chain. done. Qed.

Lemma init_llms_key_missing (cfg : Config) (env : gmap string string) (b : Provider) :
  provider_branch E (llm_provider cfg) = Some b →
  key_missing env b = true →
  ∃ msg, init_llms E cfg env = Err (ValueError msg).
Proof.
  intros H Hkey. chain_cases H; injection H as <-;
    unfold key_missing in Hkey; simpl in Hkey; try discriminate Hkey;
    rewrite ?andb_true_r in Hkey; follow_chain.
  - rewrite Hkey. eauto.
  - apply andb_true_iff in Hkey as [Hk1 Hk2].
    unfold py_or. apply negb_true_iff in Hk1. rewrite Hk1, Hk2. eauto.
  - rewrite Hkey. eauto.
  - rewrite Hkey. eauto.
  - rewrite Hkey. eauto.
Qed.

(** C8. A configuration whose provider name selects no branch of the
    provider chain (an unsupported provider), or selects a branch whose
    required API-key environment variable is unset, makes the construction
    of the orchestrator fail with the configuration error of the module, a
    [ValueError]: no orchestrator is built, nothing in the world has
    changed, and so no run can start under that configuration. *)
Theorem invalid_configuration_fails (sel : list string) (dbg : bool)
    (cfg : option Config) (env : gmap string string) w :
  let p := llm_provider (default (default_config E) cfg) in
  provider_branch E p = None ∨
  (∃ b, provider_branch E p = Some b ∧ key_missing env b = true) →
  (∃ msg, __init__ E sel dbg cfg env w = (Err (ValueError msg), w)) ∧
  (provider_branch E p = None →
   fst (__init__ E sel dbg cfg env w) =
     Err (ValueError ("Unsupported LLM provider: " +:+ p))).
Proof.
  intros p Hbad. split.
  - unfold __init__. destruct Hbad as [Hnone|(b & Hb & Hkey)].
    + rewrite init_llms_unsupported by done. eauto.
    + destruct (init_llms_key_missing _ env b Hb Hkey) as [msg ->]. eauto.
  - intros Hnone. unfold __init__. rewrite init_llms_unsupported by done. done.
Qed.

End Properties.

(** * Scenarios *)

Lemma built_fresh (E : Externals) (dbg : bool) (memory : option bool) :
  str_lower E = lower → llm_ctor E = (λ _ _, None) → setup_graph E = (λ _, None) →
  __init__ E standard_analysts dbg (Some (test_config "openai" memory)) ∅ empty_world
    = (Ok (fresh_orchestrator dbg memory), fresh_world memory).
Proof.
  intros Hl Hc Hs. unfold __init__, init_llms, is_openai, two_llms, new_llm.
  cbv zeta. rewrite Hl, Hc, Hs. simpl.
  unfold fresh_orchestrator, fresh_world, init_memories. simpl.
  destruct (default true memory); done.
Qed.

(** ** Reflection before any run *)

(** The orchestrator just built has no current state: the reflection of
    the bull researcher raises [TypeError], and so does
    [reflect_and_remember], on a machine that it leaves as it was. *)
Lemma reflect_before_any_run_witness :
  __init__ E_hold standard_analysts false (Some (test_config "openai" None)) ∅ empty_world
    = (Ok (self (fresh false None)), world (fresh false None)) ∧
  curr_state (self (fresh false None)) = None ∧
  reflect_and_remember E_hold 5%Z (fresh false None) = (Err TypeError, fresh false None).
Proof.
  split; [by apply built_fresh|]. split; [reflexivity|].
  apply (reflect_before_any_run E_hold 5%Z (fresh false None) TypeError); reflexivity.
Defined.

(** C1 as stated fails: before any run, [reflect_and_remember] raises
    [TypeError], not [NoPriorRunError]. *)
Lemma reflect_before_any_run_counterexample :
  __init__ E_hold standard_analysts false (Some (test_config "openai" None)) ∅ empty_world
    = (Ok (self (fresh false None)), world (fresh false None)) ∧
  fst (reflect_and_remember E_hold 5%Z (fresh false None)) = Err TypeError ∧
  fst (reflect_and_remember E_hold 5%Z (fresh false None)) ≠ Err NoPriorRunError.
Proof.
  split; [by apply built_fresh|]. split; [by vm_compute|]. vm_compute. discriminate.
Qed.

(** ** A run and its result *)

(** Scenario A in streaming mode: the run for AAPL ends on the fixed
    narrative, which is stored and returned with the signal HOLD. *)
Lemma propagate_stores_and_returns_witness :
  keeps_transcript (initial "AAPL" "2024-05-01")
    (Completed [initial "AAPL" "2024-05-01"] (held "AAPL" "2024-05-01")) = true ∧
  fst (propagate E_hold "AAPL" "2024-05-01" (fresh true None))
    = Ok (held "AAPL" "2024-05-01", HOLD) ∧
  curr_state (self (snd (propagate E_hold "AAPL" "2024-05-01" (fresh true None))))
    = Some (held "AAPL" "2024-05-01") ∧
  fst (process_signal E_hold (final_trade_decision (held "AAPL" "2024-05-01"))
         (Some "AAPL")
         (snd (propagate E_hold "AAPL" "2024-05-01" (fresh true None))))
    = Ok HOLD.
Proof.
  split; [reflexivity|].
  apply (propagate_stores_and_returns E_hold "AAPL" "2024-05-01" (fresh true None)
           (initial "AAPL" "2024-05-01") [initial "AAPL" "2024-05-01"]
           (held "AAPL" "2024-05-01") HOLD);
    reflexivity.
Defined.

(** ** Streaming and batch *)

(** Scenario A in both modes: the transcript grows from the framing entry
    to the verdict, and the two modes agree on the terminal state. *)
Lemma streaming_agrees_with_batch_witness :
  keeps_transcript (initial "AAPL" "2024-05-01")
    (Completed [initial "AAPL" "2024-05-01"] (held "AAPL" "2024-05-01")) = true ∧
  fst (propagate E_hold "AAPL" "2024-05-01" (fresh true None)) =
    fst (propagate E_hold "AAPL" "2024-05-01" (fresh false None)) ∧
  curr_state (self (snd (propagate E_hold "AAPL" "2024-05-01" (fresh true None))))
    = Some (held "AAPL" "2024-05-01") ∧
  curr_state (self (snd (propagate E_hold "AAPL" "2024-05-01" (fresh false None))))
    = Some (held "AAPL" "2024-05-01").
Proof.
  split; [reflexivity|].
  destruct (streaming_agrees_with_batch E_hold "AAPL" "2024-05-01"
              (fresh_orchestrator false None) (fresh_world None)
              (initial "AAPL" "2024-05-01") [initial "AAPL" "2024-05-01"]
              (held "AAPL" "2024-05-01") eq_refl eq_refl eq_refl)
    as (Hres & _ & Hstream & Hbatch).
  split; [exact Hres|]. split; [exact Hstream | exact Hbatch].
Defined.

(** A streamed run in which no chunk carries a message: [IndexError]. *)
Lemma streaming_needs_messages_witness :
  debug (self (fresh true None)) = true ∧
  fst (propagate E_silent "AAPL" "2024-05-01" (fresh true None)) = Err IndexError ∧
  curr_state (self (snd (propagate E_silent "AAPL" "2024-05-01" (fresh true None))))
    = curr_state (self (fresh true None)).
Proof.
  split; [reflexivity|].
  destruct (streaming_needs_messages E_silent "AAPL" "2024-05-01" (fresh true None)
              (initial "AAPL" "2024-05-01") eq_refl eq_refl) as (_ & _ & _ & Hempty).
  apply (Hempty [] (cleared "AAPL" "2024-05-01") eq_refl).
  intros chunk Hin. apply elem_of_cons in Hin as [->|Hin]; [reflexivity|].
  by apply elem_of_nil in Hin.
Defined.

(** ** Failed runs *)

(** After a run for AAPL, a run for MSFT fails: the current state is
    still the one of AAPL, and the log is as it was. *)
Lemma failed_run_keeps_current_state_witness :
  curr_state (self (after_first_run E_fails)) = Some (held "AAPL" "2024-05-01") ∧
  fst (propagate E_fails "MSFT" "2024-05-02" (after_first_run E_fails))
    = Err (Upstream "timeout") ∧
  curr_state (self (snd (propagate E_fails "MSFT" "2024-05-02" (after_first_run E_fails))))
    = curr_state (self (after_first_run E_fails)) ∧
  log_states_dict (self (snd (propagate E_fails "MSFT" "2024-05-02" (after_first_run E_fails))))
    = log_states_dict (self (after_first_run E_fails)) ∧
  files (world (snd (propagate E_fails "MSFT" "2024-05-02" (after_first_run E_fails))))
    = files (world (after_first_run E_fails)).
Proof.
  split; [by vm_compute|].
  apply (failed_run_keeps_current_state E_fails "MSFT" "2024-05-02"
           (after_first_run E_fails) (initial "MSFT" "2024-05-02")
           [initial "MSFT" "2024-05-02"] (Upstream "timeout"));
    by vm_compute.
Defined.

(** After a run for AAPL, a run for MSFT fails: the stored instrument is
    MSFT, the current state is still the one of AAPL. *)
Lemma failed_run_changes_ticker_witness :
  ticker (self (after_first_run E_fails)) = Some "AAPL" ∧
  fst (propagate E_fails "MSFT" "2024-05-02" (after_first_run E_fails))
    = Err (Upstream "timeout") ∧
  ticker (self (snd (propagate E_fails "MSFT" "2024-05-02" (after_first_run E_fails))))
    = Some "MSFT" ∧
  curr_state (self (snd (propagate E_fails "MSFT" "2024-05-02" (after_first_run E_fails))))
    = curr_state (self (after_first_run E_fails)).
Proof.
  split; [by vm_compute|].
  apply (failed_run_changes_ticker E_fails "MSFT" "2024-05-02"
           (after_first_run E_fails) (initial "MSFT" "2024-05-02")
           [initial "MSFT" "2024-05-02"] (Upstream "timeout"));
    by vm_compute.
Defined.

(** ** The role memories *)

Lemma after_first_run_reachable (E : Externals) :
  str_lower E = lower → llm_ctor E = (λ _ _, None) → setup_graph E = (λ _, None) →
  reachable E (after_first_run E).
Proof.
  intros Hl Hc Hs. apply reach_propagate.
  apply (reach_init E standard_analysts false (Some (test_config "openai" None))
           ∅ empty_world).
  by apply built_fresh.
Qed.

(** After a run, the reflection of the bull researcher appends its lesson
    to the bull memory and leaves the bear memory as it was. *)
Lemma reflection_isolated_witness :
  reachable E_hold (after_first_run E_hold) ∧
  (∀ r, memory_of (self (after_first_run E_hold)) r = Some (memory_name r)) ∧
  stores (world (snd (reflect_role E_hold Bull 5%Z (after_first_run E_hold)))) !! "bull_memory"
    = Some [lesson_of (held "AAPL" "2024-05-01")] ∧
  stores (world (snd (reflect_role E_hold Bull 5%Z (after_first_run E_hold)))) !! "bear_memory"
    = stores (world (after_first_run E_hold)) !! "bear_memory".
Proof.
  assert (Hreach : reachable E_hold (after_first_run E_hold))
    by (by apply after_first_run_reachable).
  destruct (reflection_isolated E_hold _ Hreach) as (Hmem & _ & Hframe & _).
  split; [exact Hreach|]. split; [exact Hmem|]. split; [by vm_compute|].
  apply (Hframe (world (after_first_run E_hold)) Bull Bear "bear_memory" 5%Z);
    [discriminate | reflexivity].
Defined.

(** C5 as stated fails: with [memory_enabled] false in the configuration,
    the constructor succeeds and the five reflector calls are all passed
    no store at all. *)
Lemma reflection_isolated_counterexample :
  __init__ E_hold standard_analysts false (Some (test_config "openai" (Some false)))
      ∅ empty_world
    = (Ok (fresh_orchestrator false (Some false)), fresh_world (Some false)) ∧
  (∀ r, memory_of (fresh_orchestrator false (Some false)) r = None) ∧
  (∀ r, memory_contents (stores (fresh_world (Some false)))
          (memory_of (fresh_orchestrator false (Some false)) r) = None) ∧
  bull_memory (fresh_orchestrator false (Some false))
    = bear_memory (fresh_orchestrator false (Some false)).
Proof.
  split; [by apply built_fresh|]. repeat split; by intros [].
Qed.

(** The language model fails on the trader: the bull and bear memories
    have their lessons, the call fails, the risk manager's memory is as it
    was. *)
Lemma reflection_stops_at_first_failure_witness :
  all_roles = [Bull; Bear] ++ Trader :: [InvestJudge; RiskManager] ∧
  outcome E_trader_fails 5%Z (after_first_run E_trader_fails) Trader
    = Err (Upstream "timeout") ∧
  fst (reflect_and_remember E_trader_fails 5%Z (after_first_run E_trader_fails))
    = Err (Upstream "timeout") ∧
  stores (world (snd (reflect_and_remember E_trader_fails 5%Z
                        (after_first_run E_trader_fails)))) !! "bear_memory"
    = Some [lesson_of (held "AAPL" "2024-05-01")] ∧
  stores (world (snd (reflect_and_remember E_trader_fails 5%Z
                        (after_first_run E_trader_fails)))) !! "risk_manager_memory"
    = stores (world (after_first_run E_trader_fails)) !! "risk_manager_memory".
Proof.
  split; [reflexivity|]. split; [by vm_compute|].
  destruct (reflection_stops_at_first_failure E_trader_fails 5%Z
              (after_first_run E_trader_fails) [Bull; Bear] [InvestJudge; RiskManager]
              Trader (Upstream "timeout")) as (Hres & Hbefore & Hafter).
  - by apply after_first_run_reachable.
  - reflexivity.
  - intros r' Hin. apply elem_of_cons in Hin as [->|Hin]; [by vm_compute|].
    apply elem_of_cons in Hin as [->|Hin]; [by vm_compute|].
    by apply elem_of_nil in Hin.
  - by vm_compute.
  - split; [exact Hres|]. split.
    + apply (Hbefore Bear "bear_memory"); [by right; left | reflexivity | by vm_compute].
    + apply (Hafter RiskManager "risk_manager_memory");
        [by right; right; left | reflexivity].
Defined.

(** C6 as stated fails: when the reflection of the trader raises, the
    investment judge, whose own reflection succeeds, receives no entry. *)
Lemma reflection_stops_at_first_failure_counterexample :
  outcome E_trader_fails 5%Z (after_first_run E_trader_fails) InvestJudge
    = Ok [lesson_of (held "AAPL" "2024-05-01")] ∧
  fst (reflect_and_remember E_trader_fails 5%Z (after_first_run E_trader_fails))
    = Err (Upstream "timeout") ∧
  stores (world (snd (reflect_and_remember E_trader_fails 5%Z
                        (after_first_run E_trader_fails)))) !! "invest_judge_memory"
    = Some [] ∧
  fst (reflect_role E_trader_fails InvestJudge 5%Z
         (snd (reflect_and_remember E_trader_fails 5%Z (after_first_run E_trader_fails))))
    = Ok tt.
Proof. repeat split; by vm_compute. Qed.

(** ** The run log *)

(** A run for AAPL on 2024-05-01, a run for MSFT the next day, a run for
    AAPL the day after: the log file of AAPL still holds the first
    snapshot, and holds the last one. *)
Lemma run_log_keeps_other_dates_witness :
  create_initial_state E_hold "AAPL" "2024-05-01" = Ok (initial "AAPL" "2024-05-01") ∧
  ∃ log,
    files (world (snd (propagate E_hold "AAPL" "2024-05-03"
                         (runs E_hold [("MSFT", "2024-05-02")]
                            (snd (propagate E_hold "AAPL" "2024-05-01"
                                    (fresh false None)))))))
      !! log_path (Some "AAPL") = Some log ∧
    log !! "2024-05-01" = Some (log_entry (held "AAPL" "2024-05-01")) ∧
    log !! "2024-05-03" = Some (log_entry (held "AAPL" "2024-05-03")).
Proof.
  split; [reflexivity|].
  destruct (run_log_keeps_other_dates E_hold "AAPL" "2024-05-01" (fresh false None)
              (initial "AAPL" "2024-05-01") (held "AAPL" "2024-05-01")
              eq_refl eq_refl) as (_ & _ & _ & _ & _ & _ & Hlater).
  apply (Hlater [("MSFT", "2024-05-02")] "AAPL" "2024-05-03"
           (initial "AAPL" "2024-05-03") (held "AAPL" "2024-05-03")).
  - intros call Hin. apply elem_of_cons in Hin as [->|Hin]; [discriminate|].
    by apply elem_of_nil in Hin.
  - discriminate.
  - reflexivity.
  - by vm_compute.
Defined.

(** C7 as stated fails: a second run of the same instrument for the same
    date, after the memories have learnt from the first, replaces the entry
    that the first run wrote. *)
Lemma run_log_keeps_other_dates_counterexample :
  files (world (after_first_run E_recalling)) !! log_path (Some "AAPL")
      ≫= (.!! "2024-05-01")
    = Some (log_entry (recalled "AAPL" "2024-05-01" "")) ∧
  files (world (snd (propagate E_recalling "AAPL" "2024-05-01"
                       (snd (reflect_and_remember E_recalling 5%Z
                               (after_first_run E_recalling))))))
      !! log_path (Some "AAPL") ≫= (.!! "2024-05-01")
    = Some (log_entry (recalled "AAPL" "2024-05-01" "be patient")) ∧
  log_entry (recalled "AAPL" "2024-05-01" "")
    ≠ log_entry (recalled "AAPL" "2024-05-01" "be patient").
Proof. repeat split; by vm_compute. Qed.

(** ** Invalid configurations *)

(** The provider [azure] is not supported; the provider [deepseek] needs
    DEEPSEEK_API_KEY, which the empty environment does not set. *)
Lemma invalid_configuration_fails_witness :
  provider_branch E_hold "azure" = None ∧
  provider_branch E_hold "deepseek" = Some DeepSeek ∧
  key_missing ∅ DeepSeek = true ∧
  (∃ msg, __init__ E_hold standard_analysts false (Some (test_config "azure" None))
            ∅ empty_world = (Err (ValueError msg), empty_world)) ∧
  (∃ msg, __init__ E_hold standard_analysts false (Some (test_config "deepseek" None))
            ∅ empty_world = (Err (ValueError msg), empty_world)).
Proof.
  split; [reflexivity|]. split; [reflexivity|]. split; [reflexivity|]. split.
  - refine (proj1 (invalid_configuration_fails E_hold standard_analysts false
                     (Some (test_config "azure" None)) ∅ empty_world _)).
    left. reflexivity.
  - refine (proj1 (invalid_configuration_fails E_hold standard_analysts false
                     (Some (test_config "deepseek" None)) ∅ empty_world _)).
    right. exists DeepSeek. split; reflexivity.
Defined.

(** * Further properties *)

Section Further.

Context (E : Externals).

Implicit Types (m : Machine) (o : TradingAgentsGraph) (w : World).

(** ** Provider names *)

Lemma prefix_lower (n s : string) :
  String.prefix n s = true → String.prefix (lower n) (lower s) = true.
Proof.
  revert s. induction n as [|a n IH]; intros s; [by destruct s|].
  destruct s as [|b s]; simpl; [done|].
  destruct (Stdlib.Strings.Ascii.ascii_dec a b) as [->|Hne]; [|done].
  intros Hp. destruct (Stdlib.Strings.Ascii.ascii_dec _ _); [by apply IH|done].
Qed.

Lemma str_in_lower (n s : string) :
  str_in n s = true → str_in (lower n) (lower s) = true.
Proof.
  induction s as [|b s IH]; intros Hin.
  - destruct n; [done|discriminate Hin].
  - change (String.prefix n (String b s) || str_in n s = true) in Hin.
    change (String.prefix (lower n) (lower (String b s)) || str_in (lower n) (lower s)
            = true).
    apply orb_true_iff in Hin as [Hp|Hin].
    + by rewrite (prefix_lower n (String b s) Hp).
    + rewrite (IH Hin). by rewrite orb_true_r.
Qed.

Lemma prefix_refl (s : string) : String.prefix s s = true.
Proof.
  induction s as [|a s IH]; simpl; [done|].
  destruct (Stdlib.Strings.Ascii.ascii_dec a a); done.
Qed.

Lemma eqb_str_in (s n : string) : String.eqb s n = true → str_in n s = true.
Proof.
  intros Heq. apply String.eqb_eq in Heq as ->.
  destruct n as [|a n]; [done|].
  change (String.prefix (String a n) (String a n) || str_in (String a n) n = true).
  by rewrite prefix_refl.
Qed.

(** A test of the chain on the name as it is written, decided from the
    lower-case form of the name. *)
Ltac settle_written_tests Hlow :=
  repeat match goal with
         | |- context [String.eqb ?p ?c] =>
             is_var p;
             let H := fresh "Hw" in
             destruct (String.eqb p c) eqn:H;
             [apply String.eqb_eq in H; subst p; vm_compute in Hlow;
              first [discriminate Hlow | congruence]
             |]
         | |- context [str_in ?c ?p] =>
             is_var p;
             let H := fresh "Hw" in
             destruct (str_in c p) eqn:H;
             [apply str_in_lower in H; rewrite Hlow in H; vm_compute in H;
              discriminate H
             |]
         end.

(** X1. For a provider name that [str.lower] lowers as ASCII letters are
    lowered (as it does every name made of ASCII characters), the names
    openai, anthropic, google, dashscope, alibaba, deepseek, custom_openai
    and qianfan select their branch however they are capitalised, whereas
    siliconflow, openrouter and ollama select theirs only when written in
    lower case: in any other capitalisation the constructor raises the
    [ValueError] of an unsupported provider. *)
Theorem provider_names_and_case (cfg : Config) (env : gmap string string)
    (name : string) (b : Provider) :
  str_lower E (llm_provider cfg) = lower (llm_provider cfg) →
  lower (llm_provider cfg) = name →
  ((name, b) ∈ lowered_names → provider_branch E (llm_provider cfg) = Some b) ∧
  ((name, b) ∈ exact_names →
     (llm_provider cfg = name → provider_branch E (llm_provider cfg) = Some b) ∧
     (llm_provider cfg ≠ name →
        init_llms E cfg env =
          Err (ValueError ("Unsupported LLM provider: " +:+ llm_provider cfg)))).
Proof.
  intros Hl Hlow.
  assert (Hexact : (name, b) ∈ exact_names →
            (llm_provider cfg = name → provider_branch E (llm_provider cfg) = Some b) ∧
            (llm_provider cfg ≠ name → provider_branch E (llm_provider cfg) = None)).
  { remember (llm_provider cfg) as p eqn:Hp. clear Hp.
    intros Hin. unfold exact_names in Hin.
    repeat (apply elem_of_cons in Hin as [[= -> ->]|Hin]; [|]);
      [..|by apply elem_of_nil in Hin].
    all: unfold provider_branch, is_openai, is_siliconflow, is_openrouter, is_ollama,
        is_anthropic, is_google, is_dashscope, is_deepseek, is_custom_openai,
        is_qianfan; rewrite Hl, Hlow.
    all: split; [intros ->; reflexivity|].
    all: intros Hne; settle_written_tests Hlow; reflexivity. }
  split.
  - remember (llm_provider cfg) as p eqn:Hp. clear Hp Hexact.
    intros Hin. unfold lowered_names in Hin.
    repeat (apply elem_of_cons in Hin as [[= -> ->]|Hin]; [|]);
      [..|by apply elem_of_nil in Hin];
      unfold provider_branch, is_openai, is_siliconflow, is_openrouter, is_ollama,
        is_anthropic, is_google, is_dashscope, is_deepseek, is_custom_openai,
        is_qianfan;
      rewrite Hl, Hlow; settle_written_tests Hlow; reflexivity.
  - intros Hin. destruct (Hexact Hin) as [Hsame Hother]. split; [done|].
    intros Hne. apply init_llms_unsupported. by apply Hother.
Qed.

(** X2. In the conditions of the DashScope and DeepSeek branches the
    equality tests add nothing to the substring tests: a provider name is
    taken for DashScope when its lower-case form is alibaba or contains
    dashscope, or when the name contains the Chinese name, and for
    DeepSeek when its lower-case form contains deepseek. A name whose
    lower-case form contains dashscope is therefore never unsupported, and
    never reaches the DeepSeek, custom and Qianfan branches, even if it
    contains deepseek as well. *)
Theorem substring_conditions (p : string) :
  is_dashscope E p =
    String.eqb (str_lower E p) "alibaba" || str_in "dashscope" (str_lower E p) ||
    str_in "阿里百炼" p ∧
  is_deepseek E p = str_in "deepseek" (str_lower E p) ∧
  (str_in "dashscope" (str_lower E p) = true →
   ∃ b, provider_branch E p = Some b ∧ b ≠ DeepSeek ∧ b ≠ CustomOpenAI ∧ b ≠ Qianfan).
Proof.
  assert (Hd : is_dashscope E p =
    String.eqb (str_lower E p) "alibaba" || str_in "dashscope" (str_lower E p) ||
    str_in "阿里百炼" p).
  { unfold is_dashscope.
    destruct (String.eqb (str_lower E p) "dashscope") eqn:Heq.
    - rewrite (eqb_str_in _ _ Heq).
      by destruct (String.eqb (str_lower E p) "alibaba").
    - done. }
  split; [done|]. split.
  - unfold is_deepseek.
    destruct (String.eqb (str_lower E p) "deepseek") eqn:Heq; [|done].
    by rewrite (eqb_str_in _ _ Heq).
  - intros Hin. unfold provider_branch. rewrite Hd, Hin, orb_true_r. simpl.
    repeat match goal with
           | |- context [if ?c then _ else _] => destruct c
           end; eexists; (split; [reflexivity|done]).
Qed.

(** ** The clients that the constructor builds *)

Ltac branch_cases H :=
  unfold provider_branch in H;
  repeat match type of H with
         | (if ?b then _ else _) = _ => destruct b eqn:?; try discriminate H
         end.

Ltac take_branch :=
  unfold init_llms; cbv zeta;
  repeat match goal with
         | Hb : ?b = _ |- context [if ?b then _ else _] =>
             lazymatch b with
             | negb _ => fail
             | _ => rewrite Hb
             end
         end.

Ltac run_chain :=
  unfold init_llms, two_llms, new_llm; cbv zeta;
  repeat match goal with
         | |- context [if ?c then _ else _] => destruct c eqn:?
         | |- context [llm_ctor E ?e ?c] => destruct (llm_ctor E e c) eqn:?
         | |- context [client_options E] => destruct (client_options E) eqn:?
         end; simpl.

(** X3. While the name [client_options] is unbound, no configuration that
    selects the Google branch builds an orchestrator: without
    GOOGLE_API_KEY (unset or empty) the constructor raises the
    [ValueError] of the missing key; with it, the deep-thinking client is
    built first, and if its constructor accepts, the arguments of the
    quick-thinking one raise [NameError]. No memory collection has been
    created by then, and the log files and the console are as before. *)
Theorem google_needs_client_options (sel : list string) (dbg : bool)
    (cfg : option Config) (env : gmap string string) w :
  client_options E = None →
  provider_branch E (llm_provider (default (default_config E) cfg)) = Some Google →
  fst (__init__ E sel dbg cfg env w) =
    (if truthy (env !! "GOOGLE_API_KEY") then
       match llm_ctor E env
               (client ChatGoogleOpenAI
                  (deep_think_llm (default (default_config E) cfg)) None
                  (env !! "GOOGLE_API_KEY") true) with
       | Some e => Err e
       | None => Err (NameError "client_options")
       end
     else Err (ValueError "使用Google AI需要设置GOOGLE_API_KEY环境变量")) ∧
  is_Ok (fst (__init__ E sel dbg cfg env w)) = false ∧
  snd (__init__ E sel dbg cfg env w) = w.
Proof.
  intros Hopt Hb. unfold __init__.
  assert (Hllm : init_llms E (default (default_config E) cfg) env =
    (if truthy (env !! "GOOGLE_API_KEY") then
       match llm_ctor E env
               (client ChatGoogleOpenAI
                  (deep_think_llm (default (default_config E) cfg)) None
                  (env !! "GOOGLE_API_KEY") true) with
       | Some e => Err e
       | None => Err (NameError "client_options")
       end
     else Err (ValueError "使用Google AI需要设置GOOGLE_API_KEY环境变量"))).
  { branch_cases Hb. take_branch. rewrite Hopt. unfold new_llm.
    destruct (truthy (env !! "GOOGLE_API_KEY")); simpl; [|done].
    destruct (llm_ctor E env _) as [e|]; done. }
  rewrite Hllm.
  destruct (truthy (env !! "GOOGLE_API_KEY")); [|done].
  destruct (llm_ctor E env _); done.
Qed.

Lemma init_llms_agree (cfg : Config) (env : gmap string string) (d q : LLMClient) :
  init_llms E cfg env = Ok (d, q) →
  llm_model d = deep_think_llm cfg ∧ llm_model q = quick_think_llm cfg ∧
  llm_class d = llm_class q ∧ llm_base_url d = llm_base_url q ∧
  llm_api_key d = llm_api_key q ∧ llm_tuned d = llm_tuned q.
Proof. run_chain; intros [= <- <-]; done. Qed.

Lemma init_clients (sel : list string) (dbg : bool) (cfg : option Config)
    (env : gmap string string) w o w' :
  __init__ E sel dbg cfg env w = (Ok o, w') →
  init_llms E (default (default_config E) cfg) env
    = Ok (deep_thinking_llm o, quick_thinking_llm o) ∧
  config o = default (default_config E) cfg ∧
  graph_deep_llm (graph o) = deep_thinking_llm o ∧
  graph_quick_llm (graph o) = quick_thinking_llm o ∧
  graph_analysts (graph o) = sel.
Proof.
  unfold __init__. destruct (init_llms _ _ _) as [[deep quick]|e]; [|done].
  destruct (init_memories _ _) as [mem s].
  destruct (setup_graph E _); [done|]. by intros [= <- <-].
Qed.

(** X4. In every orchestrator that the constructor builds, whatever the
    provider, the deep-thinking and the quick-thinking clients are of the
    same class and are given the same base URL, the same API key and the
    same sampling settings; they differ in the model, [deep_think_llm] and
    [quick_think_llm] of the configuration in force, and the graph is built
    with these two clients and the analysts selected. *)
Theorem clients_agree (sel : list string) (dbg : bool) (cfg : option Config)
    (env : gmap string string) w o w' :
  __init__ E sel dbg cfg env w = (Ok o, w') →
  llm_model (deep_thinking_llm o) = deep_think_llm (config o) ∧
  llm_model (quick_thinking_llm o) = quick_think_llm (config o) ∧
  llm_class (deep_thinking_llm o) = llm_class (quick_thinking_llm o) ∧
  llm_base_url (deep_thinking_llm o) = llm_base_url (quick_thinking_llm o) ∧
  llm_api_key (deep_thinking_llm o) = llm_api_key (quick_thinking_llm o) ∧
  llm_tuned (deep_thinking_llm o) = llm_tuned (quick_thinking_llm o) ∧
  graph_deep_llm (graph o) = deep_thinking_llm o ∧
  graph_quick_llm (graph o) = quick_thinking_llm o ∧
  graph_analysts (graph o) = sel.
Proof.
  intros Hinit. apply init_clients in Hinit as (Hllm & Hcfg & Hd & Hq & Ha).
  rewrite Hcfg. apply init_llms_agree in Hllm as (? & ? & ? & ? & ? & ?).
  repeat split; done.
Qed.

(** X5. The [backend_url] of the configuration reaches the clients of the
    openai, siliconflow, openrouter, ollama and anthropic branches only:
    there both clients get it as base URL, while on the google, dashscope,
    deepseek, custom_openai and qianfan branches the constructor builds the
    same clients whatever [backend_url] is. *)
Theorem backend_url_reaches_five_branches (cfg : Config) (env : gmap string string)
    (url : string) (b : Provider) :
  provider_branch E (llm_provider cfg) = Some b →
  (uses_backend_url b = false →
   init_llms E (with_backend_url url cfg) env = init_llms E cfg env) ∧
  (uses_backend_url b = true →
   ∀ d q, init_llms E (with_backend_url url cfg) env = Ok (d, q) →
          llm_base_url d = Some url ∧ llm_base_url q = Some url).
Proof.
  intros Hb. split; intros Huse.
  - branch_cases Hb; injection Hb as <-; try discriminate Huse;
      unfold init_llms; cbv zeta;
      change (llm_provider (with_backend_url url cfg)) with (llm_provider cfg);
      repeat match goal with
             | Hc : ?c = _ |- context [if ?c then _ else _] =>
                 lazymatch c with
                 | negb _ => fail
                 | _ => rewrite !Hc
                 end
             end; reflexivity.
  - intros d q.
    branch_cases Hb; injection Hb as <-; try discriminate Huse;
      unfold init_llms; cbv zeta;
      change (llm_provider (with_backend_url url cfg)) with (llm_provider cfg);
      repeat match goal with
             | Hc : ?c = _ |- context [if ?c then _ else _] =>
                 lazymatch c with
                 | negb _ => fail
                 | _ => rewrite !Hc
                 end
             end;
      unfold two_llms, new_llm;
      repeat match goal with
             | |- context [if ?c then _ else _] => destruct c
             | |- context [llm_ctor E ?e ?c] => destruct (llm_ctor E e c)
             end; simpl; try done; by intros [= <- <-].
Qed.

(** X6. An orchestrator is built only on a branch whose API-key check
    passes, and its clients are never handed an empty key: on the
    siliconflow, openrouter, google and deepseek branches both clients
    carry a non-empty key read from the environment; on the other branches
    the constructor hands them no key, also on custom_openai, where
    CUSTOM_OPENAI_API_KEY is checked but not passed on. On openrouter the
    key is OPENROUTER_API_KEY when that is set and not empty, and
    OPENAI_API_KEY otherwise. *)
Theorem api_keys_of_clients (sel : list string) (dbg : bool) (cfg : option Config)
    (env : gmap string string) w o w' :
  __init__ E sel dbg cfg env w = (Ok o, w') →
  ∃ b, provider_branch E (llm_provider (config o)) = Some b ∧
       key_missing env b = false ∧
       llm_api_key (quick_thinking_llm o) = llm_api_key (deep_thinking_llm o) ∧
       (if hands_key b
        then truthy (llm_api_key (deep_thinking_llm o)) = true
        else llm_api_key (deep_thinking_llm o) = None) ∧
       (b = OpenRouter →
        llm_api_key (deep_thinking_llm o) =
          if truthy (env !! "OPENROUTER_API_KEY")
          then env !! "OPENROUTER_API_KEY" else env !! "OPENAI_API_KEY").
Proof.
  intros Hinit. apply init_clients in Hinit as (Hllm & -> & _).
  revert Hllm. generalize (deep_thinking_llm o) (quick_thinking_llm o).
  generalize (default (default_config E) cfg). clear. intros c d q.
  unfold provider_branch, key_missing. run_chain; try done;
    intros [= <- <-]; eexists; (split; [reflexivity|]); simpl;
    rewrite ?andb_true_r; unfold py_or in *;
    repeat match goal with
           | H : negb ?x = false |- _ => apply negb_false_iff in H
           end;
    repeat match goal with
           | |- context [truthy ?k] =>
               lazymatch goal with
               | H : truthy k = _ |- _ => rewrite H
               | _ => destruct (truthy k) eqn:?
               end
           end; simpl; try done.
  all: match goal with
       | H : truthy (if truthy ?k then _ else _) = true, H' : truthy ?k = false |- _ =>
           rewrite H' in H; congruence
       end.
Qed.

(** ** What a call of [propagate] leaves *)

(** X7. When [propagate] raises, the instrument is stored all the same,
    and what else it leaves depends on whether the graph had handed back a
    final state. If not (no initial state, an error of the graph, an empty
    trace), the error is that one, and the current state, the log and the
    files are as before. If it had, that state is stored as the current
    state although the caller receives neither the state nor a signal:
    the assignment of line 391 precedes everything that can still fail. *)
Theorem propagate_failure_dichotomy (c d : string) m e :
  fst (propagate E c d m) = Err e →
  ticker (self (snd (propagate E c d m))) = Some c ∧
  (((create_initial_state E c d = Err e ∨
     ∃ init, create_initial_state E c d = Ok init ∧
             final_state_of (debug (self m))
               (graph_run E (graph (self m)) (stores (world m)) init) = Err e) ∧
    curr_state (self (snd (propagate E c d m))) = curr_state (self m) ∧
    log_states_dict (self (snd (propagate E c d m))) = log_states_dict (self m) ∧
    files (world (snd (propagate E c d m))) = files (world m)) ∨
   (∃ init fs,
      create_initial_state E c d = Ok init ∧
      final_state_of (debug (self m))
        (graph_run E (graph (self m)) (stores (world m)) init) = Ok fs ∧
      curr_state (self (snd (propagate E c d m))) = Some fs)).
Proof.
  rewrite propagate_unfold. cbv zeta.
  change (debug (set_ticker (Some c) (self m))) with (debug (self m)).
  change (graph (set_ticker (Some c) (self m))) with (graph (self m)).
  destruct (create_initial_state E c d) as [init|e0];
    [|intros [= ->]; split; [done|]; left; split; [by left|done]].
  destruct (final_state_of _ _) as [fs|e0] eqn:Hfinal.
  - intros _. split; [done|]. right. by exists init, fs.
  - simpl. intros [= ->]. split; [done|]. left. split; [right; by exists init|].
    destruct (debug (self m)); done.
Qed.

(** X9. When [propagate] returns a state and a signal, that state is the
    one stored as current state and the one whose snapshot the log holds
    under the date of the run, in the orchestrator and in the log file of
    the instrument; the signal is the answer of the signal processor on the
    final decision of that state and the instrument, and the stored
    instrument is the one of the run. *)
Theorem propagate_result_sound (c d : string) m fs signal :
  fst (propagate E c d m) = Ok (fs, signal) →
  curr_state (self (snd (propagate E c d m))) = Some fs ∧
  ticker (self (snd (propagate E c d m))) = Some c ∧
  signal_process E (final_trade_decision fs) (Some c) = Ok signal ∧
  log_states_dict (self (snd (propagate E c d m))) !! d = Some (log_entry fs) ∧
  (files (world (snd (propagate E c d m))) !! log_path (Some c)) ≫= (.!! d)
    = Some (log_entry fs) ∧
  ∃ init, create_initial_state E c d = Ok init ∧
          final_state_of (debug (self m))
            (graph_run E (graph (self m)) (stores (world m)) init) = Ok fs.
Proof.
  rewrite propagate_unfold. cbv zeta.
  destruct (create_initial_state E c d) as [init|e0]; [|done].
  change (debug (set_ticker (Some c) (self m))) with (debug (self m)).
  change (graph (set_ticker (Some c) (self m))) with (graph (self m)).
  destruct (final_state_of _ _) as [fs'|e0] eqn:Hfinal; [|done].
  destruct (signal_process E (final_trade_decision fs') (Some c)) as [sig|e0] eqn:Hsig;
    [|done].
  simpl. intros [= -> ->]. rewrite !lookup_insert_eq. simpl. rewrite lookup_insert_eq.
  repeat split; try done. by exists init.
Qed.

Lemma propagate_log_cases (c d : string) m :
  log_states_dict (self (snd (propagate E c d m))) = log_states_dict (self m) ∨
  ∃ fs, log_states_dict (self (snd (propagate E c d m)))
          = <[d := log_entry fs]> (log_states_dict (self m)).
Proof.
  rewrite propagate_unfold. cbv zeta.
  destruct (create_initial_state E c d) as [init|e0]; [|by left].
  destruct (final_state_of _ _) as [fs|e0]; [|by left].
  right. by exists fs.
Qed.

(** X8. Over any sequence of calls of [propagate], whatever each of them
    answers, the log never loses a date: every date logged before is still
    logged afterwards, and the dates logged afterwards are among those
    logged before and the dates of the calls. *)
Theorem logged_dates (calls : list (string * string)) m :
  dom (log_states_dict (self m)) ⊆ dom (log_states_dict (self (runs E calls m))) ∧
  dom (log_states_dict (self (runs E calls m)))
    ⊆ dom (log_states_dict (self m)) ∪ list_to_set (calls.*2).
Proof.
  revert m. induction calls as [|[c d] rest IH]; intros m.
  - simpl. split; [done|]. apply union_subseteq_l.
  - simpl. destruct (IH (snd (propagate E c d m))) as [IH1 IH2].
    destruct (propagate_log_cases c d m) as [Heq|[fs Heq]]; rewrite Heq in IH1, IH2.
    + split; [done|]. intros x Hx. apply IH2 in Hx. revert Hx.
      rewrite !elem_of_union. tauto.
    + rewrite dom_insert_L in IH1, IH2. split.
      * intros x Hx. apply IH1. apply elem_of_union. by right.
      * intros x Hx. apply IH2 in Hx. revert Hx. rewrite !elem_of_union. tauto.
Qed.

(** X13. A call of [propagate], whatever it answers, stores its instrument
    and assigns no other attribute than the current state and the log: the
    debug flag, the configuration, the two clients, the five memories and
    the graph are those of before. *)
Theorem propagate_keeps_configuration (c d : string) m :
  ticker (self (snd (propagate E c d m))) = Some c ∧
  debug (self (snd (propagate E c d m))) = debug (self m) ∧
  config (self (snd (propagate E c d m))) = config (self m) ∧
  deep_thinking_llm (self (snd (propagate E c d m))) = deep_thinking_llm (self m) ∧
  quick_thinking_llm (self (snd (propagate E c d m))) = quick_thinking_llm (self m) ∧
  (∀ r, memory_of (self (snd (propagate E c d m))) r = memory_of (self m) r) ∧
  graph (self (snd (propagate E c d m))) = graph (self m).
Proof.
  rewrite propagate_unfold. cbv zeta.
  destruct (create_initial_state E c d) as [init|e0];
    [|by repeat split; try intros []].
  destruct (final_state_of _ _) as [fs|e0]; by repeat split; try intros [].
Qed.

(** X11. The console shows what the streaming loop prints and nothing
    else: in streaming mode a call of [propagate] prints, in the order of
    the stream, the last message of every chunk that has messages, also
    for the chunks of a run that then fails; in batch mode, and when no
    initial state is made, it prints nothing. *)
Theorem console_output (c d : string) m :
  stdout (world (snd (propagate E c d m))) =
    stdout (world m) ++
    match create_initial_state E c d with
    | Ok init =>
        if debug (self m)
        then omap (λ chunk, last (messages chunk))
               (stream_chunks (graph_run E (graph (self m)) (stores (world m)) init))
        else []
    | Err _ => []
    end.
Proof.
  rewrite propagate_unfold. cbv zeta.
  destruct (create_initial_state E c d) as [init|e0]; [|by rewrite app_nil_r].
  change (debug (set_ticker (Some c) (self m))) with (debug (self m)).
  change (graph (set_ticker (Some c) (self m))) with (graph (self m)).
  destruct (final_state_of _ _) as [fs|e0]; simpl;
    destruct (debug (self m)); simpl; by rewrite ?app_nil_r.
Qed.

(** X10. For the same instrument, date and stage behaviour, provided that
    a run that completes ends on a state with messages, the streaming mode
    and the batch mode of [propagate] answer alike, also when the initial
    state cannot be made or the run fails, and they leave the same
    orchestrator, the same memories and the same files: the two modes
    differ in what the console shows only. *)
Theorem modes_differ_only_in_console (c d : string) o w :
  (∀ init mid t,
     create_initial_state E c d = Ok init →
     graph_run E (graph o) (stores w) init = Completed mid t →
     messages t ≠ []) →
  fst (propagate E c d {| self := set_debug true o; world := w |}) =
    fst (propagate E c d {| self := set_debug false o; world := w |}) ∧
  same_but_console
    (snd (propagate E c d {| self := set_debug true o; world := w |}))
    (snd (propagate E c d {| self := set_debug false o; world := w |})).
Proof.
  intros Hmsg. rewrite !propagate_unfold. cbv zeta. unfold same_but_console. simpl.
  destruct (create_initial_state E c d) as [init|e0] eqn:Hinit; [|done].
  destruct (graph_run E (graph o) (stores w) init) as [ys e0|mid t] eqn:Hrun; [done|].
  simpl. unfold py_last.
  rewrite (last_snoc_kept mid t (Hmsg init mid t eq_refl Hrun)). done.
Qed.

(** ** What a call of [reflect_and_remember] leaves *)

Lemma reflect_seq_leaves (rs : list Role) (ret : Returns) m :
  self (snd (reflect_seq E rs ret m)) = self m ∧
  files (world (snd (reflect_seq E rs ret m))) = files (world m) ∧
  stdout (world (snd (reflect_seq E rs ret m))) = stdout (world m) ∧
  ∀ n, (∀ r, r ∈ rs → memory_of (self m) r ≠ Some n) →
       stores (world (snd (reflect_seq E rs ret m))) !! n = stores (world m) !! n.
Proof.
  revert m. induction rs as [|r rest IH]; intros m; [done|].
  simpl. unfold mbind, Run_bind.
  pose proof (reflect_role_self E r ret m) as (Hself & Hfiles & Hout).
  pose proof (reflect_role_frame E r ret m) as Hframe.
  destruct (reflect_role E r ret m) as [[[]|e] m1]; simpl in *.
  - destruct (IH m1) as (IHself & IHfiles & IHout & IHframe).
    rewrite IHself, IHfiles, IHout, Hself, Hfiles, Hout.
    repeat split; try done. intros n Hn. rewrite IHframe.
    + apply Hframe. apply Hn. by left.
    + intros r' Hin. rewrite Hself. apply Hn. by right.
  - repeat split; try done. intros n Hn. apply Hframe. apply Hn. by left.
Qed.

(** X12. A call of [reflect_and_remember], whatever it answers, changes
    nothing but the memory collections of the five roles: the attributes of
    the orchestrator (current state, instrument, log among them), the
    files and the console are as before, and so is every collection that is
    not the memory of a role; with the memories disabled the whole machine
    is as before. *)
Theorem reflection_touches_only_memories (ret : Returns) m :
  self (snd (reflect_and_remember E ret m)) = self m ∧
  files (world (snd (reflect_and_remember E ret m))) = files (world m) ∧
  stdout (world (snd (reflect_and_remember E ret m))) = stdout (world m) ∧
  (∀ n, (∀ r, memory_of (self m) r ≠ Some n) →
        stores (world (snd (reflect_and_remember E ret m))) !! n
          = stores (world m) !! n) ∧
  ((∀ r, memory_of (self m) r = None) → snd (reflect_and_remember E ret m) = m).
Proof.
  rewrite reflect_and_remember_seq.
  destruct (reflect_seq_leaves all_roles ret m) as (Hself & Hfiles & Hout & Hframe).
  split; [done|]. split; [done|]. split; [done|]. split.
  - intros n Hn. apply Hframe. intros r _. apply Hn.
  - intros Hnone.
    assert (Hstores : stores (world (snd (reflect_seq E all_roles ret m)))
                      = stores (world m)).
    { apply map_eq. intros n. apply Hframe. intros r _. by rewrite Hnone. }
    destruct (snd (reflect_seq E all_roles ret m)) as [o' [s' f' out']].
    destruct m as [o [s f out]]. simpl in *. congruence.
Qed.

(** ** The current state and the log *)

(** X14. On every machine that the constructor, [propagate] and
    [reflect_and_remember] produce, the log has entries only if there is a
    current state, and there is a current state only if an instrument is
    stored: while no instrument is stored there is no current state, and
    while there is no current state the log is empty. *)
Theorem log_needs_current_state m :
  reachable E m →
  (ticker (self m) = None → curr_state (self m) = None) ∧
  (curr_state (self m) = None → log_states_dict (self m) = ∅).
Proof.
  induction 1 as [sel dbg cfg env w o w' Hinit|m c d _ IH|m ret _ IH].
  - apply init_fields in Hinit as (_ & _ & Hcurr & _ & Hlog & _). by simpl.
  - rewrite propagate_unfold. cbv zeta. destruct IH as [_ IH].
    destruct (create_initial_state E c d) as [init|e0]; [|by split].
    destruct (final_state_of _ _) as [fs|e0]; by split.
  - by rewrite reflect_and_remember_seq, reflect_seq_self.
Qed.

End Further.

(** * Further scenarios *)

(** OpenAI in capitals is the openai branch; OpenRouter in capitals is
    not supported. *)
Lemma provider_names_and_case_witness :
  str_lower E_hold "OpenRouter" = lower "OpenRouter" ∧
  lower "OpenRouter" = "openrouter" ∧
  provider_branch E_hold "OpenAI" = Some OpenAI ∧
  init_llms E_hold (test_config "OpenRouter" None) ∅
    = Err (ValueError "Unsupported LLM provider: OpenRouter").
Proof.
  split; [reflexivity|]. split; [reflexivity|]. split.
  - apply (proj1 (provider_names_and_case E_hold (test_config "OpenAI" None) ∅
                    "openai" OpenAI eq_refl eq_refl)).
    by left.
  - apply (proj2 (provider_names_and_case E_hold (test_config "OpenRouter" None) ∅
                    "openrouter" OpenRouter eq_refl eq_refl)).
    + by right; left.
    + discriminate.
Defined.

(** The provider google: [NameError] with its key set, [ValueError]
    without. *)
Lemma google_needs_client_options_witness :
  client_options E_hold = None ∧
  provider_branch E_hold "google" = Some Google ∧
  fst (__init__ E_hold standard_analysts false (Some (test_config "google" None))
         {["GOOGLE_API_KEY" := "key"]} empty_world)
    = Err (NameError "client_options") ∧
  fst (__init__ E_hold standard_analysts false (Some (test_config "google" None))
         ∅ empty_world)
    = Err (ValueError "使用Google AI需要设置GOOGLE_API_KEY环境变量").
Proof.
  split; [reflexivity|]. split; [reflexivity|]. split.
  - exact (proj1 (google_needs_client_options E_hold standard_analysts false
                    (Some (test_config "google" None)) {["GOOGLE_API_KEY" := "key"]}
                    empty_world eq_refl eq_refl)).
  - exact (proj1 (google_needs_client_options E_hold standard_analysts false
                    (Some (test_config "google" None)) ∅ empty_world
                    eq_refl eq_refl)).
Defined.

(** The provider deepseek with its key set: two [ChatDeepSeek] clients
    with that key and the default base URL. *)
Lemma clients_agree_witness :
  construct E_hold (test_config "deepseek" None) {["DEEPSEEK_API_KEY" := "key"]}
    = (Ok (constructed E_hold (test_config "deepseek" None)
             {["DEEPSEEK_API_KEY" := "key"]}), empty_world_with_memories) ∧
  llm_class (deep_thinking_llm (constructed E_hold (test_config "deepseek" None)
                                  {["DEEPSEEK_API_KEY" := "key"]})) = ChatDeepSeek ∧
  llm_class (quick_thinking_llm (constructed E_hold (test_config "deepseek" None)
                                   {["DEEPSEEK_API_KEY" := "key"]})) = ChatDeepSeek ∧
  llm_base_url (quick_thinking_llm (constructed E_hold (test_config "deepseek" None)
                                      {["DEEPSEEK_API_KEY" := "key"]}))
    = Some "https://api.deepseek.com".
Proof.
  assert (Hinit : construct E_hold (test_config "deepseek" None)
                    {["DEEPSEEK_API_KEY" := "key"]}
                  = (Ok (constructed E_hold (test_config "deepseek" None)
                           {["DEEPSEEK_API_KEY" := "key"]}), empty_world_with_memories))
    by (by vm_compute).
  destruct (clients_agree E_hold _ _ _ _ _ _ _ Hinit)
    as (_ & _ & Hclass & Hurl & _).
  split; [exact Hinit|]. split; [reflexivity|].
  split; [rewrite <- Hclass; reflexivity | rewrite <- Hurl; reflexivity].
Defined.

(** The provider deepseek builds the same clients whatever [backend_url]
    is; the provider openai hands it to both clients. *)
Lemma backend_url_reaches_five_branches_witness :
  provider_branch E_hold "deepseek" = Some DeepSeek ∧
  init_llms E_hold (with_backend_url "http://localhost:8000" (test_config "deepseek" None))
      {["DEEPSEEK_API_KEY" := "key"]}
    = init_llms E_hold (test_config "deepseek" None) {["DEEPSEEK_API_KEY" := "key"]} ∧
  llm_base_url (openai_client_at "http://localhost:8000" "deep")
    = Some "http://localhost:8000".
Proof.
  split; [reflexivity|]. split.
  - apply (proj1 (backend_url_reaches_five_branches E_hold (test_config "deepseek" None)
                    {["DEEPSEEK_API_KEY" := "key"]} "http://localhost:8000" DeepSeek
                    eq_refl)).
    reflexivity.
  - apply (proj2 (backend_url_reaches_five_branches E_hold (test_config "openai" None)
                    ∅ "http://localhost:8000" OpenAI eq_refl) eq_refl
             (openai_client_at "http://localhost:8000" "deep")
             (openai_client_at "http://localhost:8000" "quick")).
    reflexivity.
Defined.

(** The provider openrouter with an empty OPENROUTER_API_KEY and an
    OPENAI_API_KEY: the clients carry the latter. *)
Lemma api_keys_of_clients_witness :
  construct E_hold (test_config "openrouter" None) both_keys
    = (Ok (constructed E_hold (test_config "openrouter" None) both_keys),
       empty_world_with_memories) ∧
  ∃ b, provider_branch E_hold
         (llm_provider (config (constructed E_hold (test_config "openrouter" None)
                                  both_keys))) = Some b ∧
       key_missing both_keys b = false ∧
       llm_api_key (quick_thinking_llm
                      (constructed E_hold (test_config "openrouter" None) both_keys))
         = llm_api_key (deep_thinking_llm
                          (constructed E_hold (test_config "openrouter" None) both_keys)) ∧
       (if hands_key b
        then truthy (llm_api_key (deep_thinking_llm
               (constructed E_hold (test_config "openrouter" None) both_keys))) = true
        else llm_api_key (deep_thinking_llm
               (constructed E_hold (test_config "openrouter" None) both_keys)) = None) ∧
       (b = OpenRouter →
        llm_api_key (deep_thinking_llm
                       (constructed E_hold (test_config "openrouter" None) both_keys))
          = Some "sk-openai").
Proof.
  assert (Hinit : construct E_hold (test_config "openrouter" None) both_keys
                  = (Ok (constructed E_hold (test_config "openrouter" None) both_keys),
                     empty_world_with_memories))
    by (by vm_compute).
  split; [exact Hinit|].
  exact (api_keys_of_clients E_hold _ _ _ _ _ _ _ Hinit).
Defined.

(** The run for AAPL reaches its final state and the signal processor
    fails: [propagate] raises, with that state stored. *)
Lemma propagate_failure_dichotomy_witness :
  fst (propagate E_signal_fails "AAPL" "2024-05-01" (fresh false None))
    = Err (Upstream "signal") ∧
  ticker (self (snd (propagate E_signal_fails "AAPL" "2024-05-01" (fresh false None))))
    = Some "AAPL" ∧
  curr_state (self (snd (propagate E_signal_fails "AAPL" "2024-05-01" (fresh false None))))
    = Some (held "AAPL" "2024-05-01").
Proof.
  assert (Hfail : fst (propagate E_signal_fails "AAPL" "2024-05-01" (fresh false None))
                  = Err (Upstream "signal")) by (by vm_compute).
  destruct (propagate_failure_dichotomy E_signal_fails "AAPL" "2024-05-01"
              (fresh false None) (Upstream "signal") Hfail) as [Hticker _].
  split; [exact Hfail|]. split; [exact Hticker|]. by vm_compute.
Defined.

(** Scenario A: what is returned is what is stored and logged. *)
Lemma propagate_result_sound_witness :
  fst (propagate E_hold "AAPL" "2024-05-01" (fresh false None))
    = Ok (held "AAPL" "2024-05-01", HOLD) ∧
  curr_state (self (snd (propagate E_hold "AAPL" "2024-05-01" (fresh false None))))
    = Some (held "AAPL" "2024-05-01") ∧
  log_states_dict (self (snd (propagate E_hold "AAPL" "2024-05-01" (fresh false None))))
    !! "2024-05-01" = Some (log_entry (held "AAPL" "2024-05-01")) ∧
  (files (world (snd (propagate E_hold "AAPL" "2024-05-01" (fresh false None))))
     !! log_path (Some "AAPL")) ≫= (.!! "2024-05-01")
    = Some (log_entry (held "AAPL" "2024-05-01")).
Proof.
  assert (Hres : fst (propagate E_hold "AAPL" "2024-05-01" (fresh false None))
                 = Ok (held "AAPL" "2024-05-01", HOLD)) by (by vm_compute).
  destruct (propagate_result_sound E_hold "AAPL" "2024-05-01" (fresh false None)
              (held "AAPL" "2024-05-01") HOLD Hres)
    as (Hcurr & _ & _ & Hlog & Hfile & _).
  split; [exact Hres|]. split; [exact Hcurr|]. split; [exact Hlog | exact Hfile].
Defined.

(** Scenario A in both modes: the same answer, the same orchestrator, the
    same memories and files. *)
Lemma modes_differ_only_in_console_witness :
  fst (propagate E_hold "AAPL" "2024-05-01"
         {| self := set_debug true (fresh_orchestrator false None);
            world := fresh_world None |}) =
    fst (propagate E_hold "AAPL" "2024-05-01"
           {| self := set_debug false (fresh_orchestrator false None);
              world := fresh_world None |}) ∧
  same_but_console
    (snd (propagate E_hold "AAPL" "2024-05-01"
            {| self := set_debug true (fresh_orchestrator false None);
               world := fresh_world None |}))
    (snd (propagate E_hold "AAPL" "2024-05-01"
            {| self := set_debug false (fresh_orchestrator false None);
               world := fresh_world None |})).
Proof.
  apply (modes_differ_only_in_console E_hold "AAPL" "2024-05-01"
           (fresh_orchestrator false None) (fresh_world None)).
  intros init mid t Hinit Hrun. vm_compute in Hinit. injection Hinit as <-.
  vm_compute in Hrun. injection Hrun as _ <-. discriminate.
Defined.

(** The orchestrator just built stores no instrument: it has no current
    state and its log is empty. *)
Lemma log_needs_current_state_witness :
  reachable E_hold (fresh false None) ∧
  ticker (self (fresh false None)) = None ∧
  curr_state (self (fresh false None)) = None ∧
  log_states_dict (self (fresh false None)) = ∅.
Proof.
  assert (Hreach : reachable E_hold (fresh false None)).
  { apply (reach_init E_hold standard_analysts false (Some (test_config "openai" None))
             ∅ empty_world).
    by apply built_fresh. }
  destruct (log_needs_current_state E_hold _ Hreach) as [Hticker Hcurr].
  split; [exact Hreach|]. split; [reflexivity|].
  split; [exact (Hticker eq_refl) | exact (Hcurr (Hticker eq_refl))].
Defined.
